(** * nacos-cli: change-watch engine and synchronization orchestrator

  A shallow embedding of
    - [internal/listener/config_listener.go] (long-poll listener), and
    - [internal/sync/skill_syncer.go]        (skill synchronizer),
  together with the parts of Go's standard library those two files rely
  on ([strings], [net/url], [crypto/md5], [fmt] verbs %s, %d and %x).

  Go strings are byte sequences; they are modelled by [string], whose
  characters are the 8-bit [ascii].  A Go [error] is only ever inspected
  through [err != nil] and [err.Error()], so it is modelled by its
  message, and a possibly-nil error by [option string]. *)

From Stdlib Require Import String Ascii ZArith List Lia Bool DecimalString.
From stdpp Require Import gmap strings list.

Local Open Scope string_scope.

(** ** Effects

    A computation reads and updates a state and either yields a value or
    panics (a Go run-time panic unwinds the whole call stack; nothing in
    these two files recovers). *)

Inductive Res (S A : Type) : Type :=
| Ok (a : A) (s : S)
| Panicked (s : S).

Arguments Ok {S A} a s.
Arguments Panicked {S A} s.

Definition M (S A : Type) : Type := S -> Res S A.

Definition ret {S A : Type} (a : A) : M S A := fun s => Ok a s.

Definition bind {S A B : Type} (m : M S A) (k : A -> M S B) : M S B :=
  fun s => match m s with
           | Ok a s' => k a s'
           | Panicked s' => Panicked s'
           end.

Definition panic {S A : Type} : M S A := fun s => Panicked s.

Notation "'let*' x ':=' m 'in' k" := (bind m (fun x => k))
  (at level 10, x name, m at level 100, k at level 200).
Notation "'let*' ' p ':=' m 'in' k" := (bind m (fun x => match x with p => k end))
  (at level 10, p pattern, m at level 100, k at level 200).

(** An operation of the environment: it answers and moves the world on. *)
Definition call {W A : Type} (f : W -> A * W) : M W A :=
  fun w => Ok (fst (f w)) (snd (f w)).

(** [err.Error()]: a nil error has no method to call. *)
Definition Error {S : Type} (err : option string) : M S string :=
  match err with
  | Some msg => ret msg
  | None => panic
  end.

(** The verb [%d] of [fmt]. *)
Definition itoa (n : Z) : string := NilZero.string_of_int (Z.to_int n).

(** What [http.Client.Do] hands back: the status line, what [io.ReadAll]
    reads from the body (with the error it stops on, if any) and the
    [Content-MD5] header (empty when absent). *)
Record HttpResponse : Type := mkHttpResponse {
  StatusCode : Z;
  Body : string;
  ReadErr : option string;
  ContentMD5 : string
}.

Inductive HttpOutcome : Type :=
| DoError (msg : string)
| DoResponse (resp : HttpResponse).

(** The collaborators of the two packages, as operations on a world [W]:
    the HTTP endpoints of the store, the cancellation context, Go's
    unspecified map iteration order, the clock, the plain client, the
    skill service and the file system. *)
Record Env (W : Type) : Type := mkEnv {
  ctx_cancelled : W -> bool * W;
  post_listener : string -> W -> HttpOutcome * W;
  get_configs : string -> string -> string -> W -> HttpOutcome * W;
  map_range : gmap string nat -> W -> list (string * nat) * W;
  time_Sleep : Z -> W -> unit * W;
  client_GetConfig : string -> string -> W -> (string * option string) * W;
  skill_GetSkill : string -> string -> W -> option string * W;
  os_Stat : string -> W -> option string * W;
  os_RemoveAll : string -> W -> option string * W;
  filepath_Join : string -> string -> string
}.

Arguments ctx_cancelled {W} _ _.
Arguments post_listener {W} _ _ _.
Arguments get_configs {W} _ _ _ _ _.
Arguments map_range {W} _ _ _.
Arguments time_Sleep {W} _ _ _.
Arguments client_GetConfig {W} _ _ _ _.
Arguments skill_GetSkill {W} _ _ _ _.
Arguments os_Stat {W} _ _ _.
Arguments os_RemoveAll {W} _ _ _.
Arguments filepath_Join {W} _ _ _.

(** [time.Second], in nanoseconds. *)
Definition Second : Z := 1000000000.

(** ** Package [strings] *)

Module Strings.

(** [strings.HasPrefix(s, prefix)] *)
Definition HasPrefix (s pre : string) : bool := String.prefix pre s.

(** [strings.Contains(s, substr)] *)
Fixpoint Contains (s substr : string) : bool :=
  if String.prefix substr s then true
  else match s with
       | EmptyString => false
       | String _ r => Contains r substr
       end.

Fixpoint drop_bytes (n : nat) (s : string) : string :=
  match n, s with
  | S n', String _ r => drop_bytes n' r
  | _, _ => s
  end.

(** [strings.TrimPrefix(s, prefix)] *)
Definition TrimPrefix (s pre : string) : string :=
  if HasPrefix s pre then drop_bytes (String.length pre) s else s.

(** [strings.Split(s, sep)] for a one-byte separator: the pieces between
    consecutive separators, [Count(s, sep) + 1] of them. *)
Fixpoint Split (s : string) (sep : ascii) : list string :=
  match s with
  | EmptyString => [EmptyString]
  | String c r =>
      if Ascii.eqb c sep then EmptyString :: Split r sep
      else match Split r sep with
           | h :: t => String c h :: t
           | [] => [String c EmptyString]
           end
  end.

(** [strings.Join(elems, sep)] *)
Fixpoint Join (elems : list string) (sep : string) : string :=
  match elems with
  | [] => EmptyString
  | [a] => a
  | a :: rest => a +:+ sep +:+ Join rest sep
  end.

(** Does byte [c] occur in [s]? *)
Fixpoint has_byte (c : ascii) (s : string) : bool :=
  match s with
  | EmptyString => false
  | String d r => Ascii.eqb d c || has_byte c r
  end.

End Strings.

(** ** Package [net/url]: [QueryEscape] and [QueryUnescape] *)

Module Url.

Definition in_range (lo hi : nat) (c : ascii) : bool :=
  let n := nat_of_ascii c in (lo <=? n)%nat && (n <=? hi)%nat.

(** [shouldEscape(c, encodeQueryComponent)]: everything except the
    unreserved characters is escaped. *)
Definition shouldEscape (c : ascii) : bool :=
  if in_range 97 122 c || in_range 65 90 c || in_range 48 57 c then false
  else if Ascii.eqb c "-" || Ascii.eqb c "_" || Ascii.eqb c "." || Ascii.eqb c "~"
       then false
       else true.

(** ["0123456789ABCDEF"[n]] *)
Definition upperhex (n : nat) : ascii :=
  match String.get n "0123456789ABCDEF" with
  | Some c => c
  | None => "0"%char
  end.

Definition escape_byte (c : ascii) : string :=
  if Ascii.eqb c " " then "+"
  else if shouldEscape c
       then String "%" (String (upperhex (nat_of_ascii c / 16))
                         (String (upperhex (nat_of_ascii c mod 16)) EmptyString))
       else String c EmptyString.

Fixpoint QueryEscape (s : string) : string :=
  match s with
  | EmptyString => EmptyString
  | String c r => escape_byte c +:+ QueryEscape r
  end.

Definition ishex (c : ascii) : bool :=
  in_range 48 57 c || in_range 97 102 c || in_range 65 70 c.

Definition unhex (c : ascii) : nat :=
  let n := nat_of_ascii c in
  if in_range 48 57 c then n - 48
  else if in_range 97 102 c then n - 97 + 10
       else if in_range 65 70 c then n - 65 + 10
            else 0.

(** [QueryUnescape]: [None] stands for the [EscapeError] returned when a
    ['%'] is not followed by two hexadecimal digits. *)
Fixpoint QueryUnescape (s : string) : option string :=
  match s with
  | EmptyString => Some EmptyString
  | String c r =>
      if Ascii.eqb c "%" then
        match r with
        | String a (String b rest) =>
            if ishex a && ishex b
            then option_map (String (ascii_of_nat (unhex a * 16 + unhex b)))
                            (QueryUnescape rest)
            else None
        | _ => None
        end
      else if Ascii.eqb c "+" then option_map (String " ") (QueryUnescape r)
           else option_map (String c) (QueryUnescape r)
  end.

End Url.

(** ** Package [crypto/md5] (RFC 1321) and the [%x] verb of [fmt] *)

Module Md5.

Local Open Scope Z_scope.

Definition mask32 : Z := 4294967295.

Definition add32 (a b : Z) : Z := Z.land (a + b) mask32.

Definition not32 (a : Z) : Z := Z.lxor a mask32.

(** [bits.RotateLeft32] *)
Definition rotl32 (x c : Z) : Z :=
  Z.lor (Z.land (Z.shiftl x c) mask32) (Z.shiftr x (32 - c)).

(** The table [T[i] = floor(2^32 * |sin(i + 1)|)]. *)
Definition K : list Z :=
  [ 3614090360; 3905402710; 606105819; 3250441966; 4118548399; 1200080426;
    2821735955; 4249261313; 1770035416; 2336552879; 4294925233; 2304563134;
    1804603682; 4254626195; 2792965006; 1236535329; 4129170786; 3225465664;
    643717713; 3921069994; 3593408605; 38016083; 3634488961; 3889429448;
    568446438; 3275163606; 4107603335; 1163531501; 2850285829; 4243563512;
    1735328473; 2368359562; 4294588738; 2272392833; 1839030562; 4259657740;
    2763975236; 1272893353; 4139469664; 3200236656; 681279174; 3936430074;
    3572445317; 76029189; 3654602809; 3873151461; 530742520; 3299628645;
    4096336452; 1126891415; 2878612391; 4237533241; 1700485571; 2399980690;
    4293915773; 2240044497; 1873313359; 4264355552; 2734768916; 1309151649;
    4149444226; 3174756917; 718787259; 3951481745 ].

(** Per-step rotation amounts. *)
Definition shifts : list Z :=
  [ 7; 12; 17; 22; 7; 12; 17; 22; 7; 12; 17; 22; 7; 12; 17; 22;
    5; 9; 14; 20; 5; 9; 14; 20; 5; 9; 14; 20; 5; 9; 14; 20;
    4; 11; 16; 23; 4; 11; 16; 23; 4; 11; 16; 23; 4; 11; 16; 23;
    6; 10; 15; 21; 6; 10; 15; 21; 6; 10; 15; 21; 6; 10; 15; 21 ].

Record digest_state : Type := mkState { sA : Z; sB : Z; sC : Z; sD : Z }.

Definition init_state : digest_state :=
  mkState 1732584193 4023233417 2562383102 271733878.

(** The mixing function of step [i] and the index of the message word it
    consumes. *)
Definition round_fun (i : nat) (b c d : Z) : Z :=
  if (i <? 16)%nat then Z.lor (Z.land b c) (Z.land (not32 b) d)
  else if (i <? 32)%nat then Z.lor (Z.land b d) (Z.land c (not32 d))
  else if (i <? 48)%nat then Z.lxor b (Z.lxor c d)
  else Z.lxor c (Z.lor b (not32 d)).

Definition word_index (i : nat) : nat :=
  if (i <? 16)%nat then i
  else if (i <? 32)%nat then ((5 * i + 1) mod 16)%nat
  else if (i <? 48)%nat then ((3 * i + 5) mod 16)%nat
  else ((7 * i) mod 16)%nat.

Definition step (m : list Z) (st : digest_state) (i : nat) : digest_state :=
  let f := round_fun i (sB st) (sC st) (sD st) in
  let sum := add32 (add32 (add32 f (sA st)) (nth i K 0)) (nth (word_index i) m 0) in
  mkState (sD st) (add32 (sB st) (rotl32 sum (nth i shifts 0))) (sB st) (sC st).

(** Four bytes, little-endian, to a 32-bit word. *)
Definition word_of_bytes (bs : list Z) : Z :=
  nth 0 bs 0 + Z.shiftl (nth 1 bs 0) 8 + Z.shiftl (nth 2 bs 0) 16
  + Z.shiftl (nth 3 bs 0) 24.

Fixpoint words_of_block (n : nat) (bs : list Z) : list Z :=
  match n with
  | O => []
  | S n' => word_of_bytes (firstn 4 bs) :: words_of_block n' (skipn 4 bs)
  end.

(** One 64-byte block. *)
Definition block (st : digest_state) (bs : list Z) : digest_state :=
  let m := words_of_block 16 bs in
  let st' := fold_left (step m) (seq 0 64) st in
  mkState (add32 (sA st) (sA st')) (add32 (sB st) (sB st'))
          (add32 (sC st) (sC st')) (add32 (sD st) (sD st')).

Fixpoint blocks (n : nat) (st : digest_state) (bs : list Z) : digest_state :=
  match n with
  | O => st
  | S n' => blocks n' (block st (firstn 64 bs)) (skipn 64 bs)
  end.

(** [n] as [k] little-endian bytes. *)
Fixpoint le_bytes (k : nat) (n : Z) : list Z :=
  match k with
  | O => []
  | S k' => Z.land n 255 :: le_bytes k' (Z.shiftr n 8)
  end.

(** Padding: a single 0x80, zeros up to 56 modulo 64, then the bit length
    as a 64-bit little-endian integer. *)
Definition pad (bs : list Z) : list Z :=
  let len := Z.of_nat (length bs) in
  let zeros := Z.to_nat ((55 - len) mod 64) in
  bs ++ [128] ++ repeat 0 zeros ++ le_bytes 8 (Z.land (len * 8) 18446744073709551615).

Definition bytes_of_string (s : string) : list Z :=
  map (fun c => Z.of_nat (nat_of_ascii c)) (list_ascii_of_string s).

(** [md5.Sum]: the 16 bytes of the digest. *)
Definition Sum (s : string) : list Z :=
  let p := pad (bytes_of_string s) in
  let st := blocks (length p / 64) init_state p in
  le_bytes 4 (sA st) ++ le_bytes 4 (sB st) ++ le_bytes 4 (sC st) ++ le_bytes 4 (sD st).

(** ["0123456789abcdef"[n]] *)
Definition lowerhex (n : Z) : ascii :=
  match String.get (Z.to_nat n) "0123456789abcdef" with
  | Some c => c
  | None => "0"%char
  end.

(** [fmt.Sprintf("%x", bs)] for a byte array: two lower-case digits a byte. *)
Fixpoint hex_of_bytes (bs : list Z) : string :=
  match bs with
  | [] => EmptyString
  | b :: r => String (lowerhex (Z.shiftr b 4)) (String (lowerhex (Z.land b 15)) (hex_of_bytes r))
  end.

End Md5.

(** ** Package [listener]: data and wire format *)

Module Listener.

Import Strings Url.

(** [type ConfigItem struct] *)
Record ConfigItem : Type := mkConfigItem {
  DataID : string;
  Group : string;
  Tenant : string;
  MD5 : string
}.

(** field separator [\x02] and entry separator [\x01] *)
Definition x01 : ascii := "001"%char.
Definition x02 : ascii := "002"%char.

(** The two [fmt.Sprintf] calls of [buildListeningConfigs]. *)
Definition listening_entry (item : ConfigItem) : string :=
  if negb (String.eqb (Tenant item) "")
  then DataID item +:+ String x02 (Group item +:+ String x02 (MD5 item +:+
         String x02 (Tenant item +:+ String x01 EmptyString)))
  else DataID item +:+ String x02 (Group item +:+ String x02 (MD5 item +:+
         String x01 EmptyString)).

Definition buildListeningConfigs (items : list ConfigItem) : string :=
  QueryEscape (Join (map listening_entry items) "").

Definition parse_line (line : string) : list ConfigItem :=
  if String.eqb line "" then []
  else
    let fields := Split line x02 in
    if (2 <=? length fields)%nat then
      [ {| DataID := nth 0 fields "";
           Group := nth 1 fields "";
           Tenant := if (4 <=? length fields)%nat then nth 3 fields "" else "";
           MD5 := "" |} ]
    else [].

Definition parseChangedConfigs (response : string) : list ConfigItem :=
  match QueryUnescape response with
  | None => []
  | Some decoded => flat_map parse_line (Split decoded x01)
  end.

(** A string free of the two delimiter bytes, and an item all of whose
    fields are. *)
Definition delimiter_free (s : string) : bool :=
  negb (has_byte x01 s) && negb (has_byte x02 s).

Definition clean_item (item : ConfigItem) : bool :=
  delimiter_free (DataID item) && delimiter_free (Group item)
  && delimiter_free (MD5 item) && delimiter_free (Tenant item).

(** What the server's answer says about an item: its identity, without a
    fingerprint. *)
Definition forget_MD5 (item : ConfigItem) : ConfigItem :=
  {| DataID := DataID item; Group := Group item; Tenant := Tenant item; MD5 := "" |}.

Definition triple (item : ConfigItem) : string * string * string :=
  (DataID item, Group item, Tenant item).

(** [CalculateMD5]: [fmt.Sprintf("%x", md5.Sum([]byte(content)))] *)
Definition CalculateMD5 (content : string) : string :=
  Md5.hex_of_bytes (Md5.Sum content).

(** [calculateMD5] is the internal version. *)
Definition calculateMD5 (content : string) : string := CalculateMD5 content.

(** Two contents of 128 bytes each that differ in six bytes (the pair
    published by Wang and Yu, 2005). *)
Definition string_of_bytes (bs : list nat) : string :=
  string_of_list_ascii (map ascii_of_nat bs).

Definition content_a : string := string_of_bytes
  [
    209; 49; 221; 2; 197; 230; 238; 196; 105; 61; 154; 6; 152; 175; 249; 92;
    47; 202; 181; 135; 18; 70; 126; 171; 64; 4; 88; 62; 184; 251; 127; 137;
    85; 173; 52; 6; 9; 244; 179; 2; 131; 228; 136; 131; 37; 113; 65; 90;
    8; 81; 37; 232; 247; 205; 201; 159; 217; 29; 189; 242; 128; 55; 60; 91;
    216; 130; 62; 49; 86; 52; 143; 91; 174; 109; 172; 212; 54; 201; 25; 198;
    221; 83; 226; 180; 135; 218; 3; 253; 2; 57; 99; 6; 210; 72; 205; 160;
    233; 159; 51; 66; 15; 87; 126; 232; 206; 84; 182; 112; 128; 168; 13; 30;
    198; 152; 33; 188; 182; 168; 131; 147; 150; 249; 101; 43; 111; 247; 42; 112 ].

Definition content_b : string := string_of_bytes
  [
    209; 49; 221; 2; 197; 230; 238; 196; 105; 61; 154; 6; 152; 175; 249; 92;
    47; 202; 181; 7; 18; 70; 126; 171; 64; 4; 88; 62; 184; 251; 127; 137;
    85; 173; 52; 6; 9; 244; 179; 2; 131; 228; 136; 131; 37; 241; 65; 90;
    8; 81; 37; 232; 247; 205; 201; 159; 217; 29; 189; 114; 128; 55; 60; 91;
    216; 130; 62; 49; 86; 52; 143; 91; 174; 109; 172; 212; 54; 201; 25; 198;
    221; 83; 226; 52; 135; 218; 3; 253; 2; 57; 99; 6; 210; 72; 205; 160;
    233; 159; 51; 66; 15; 87; 126; 232; 206; 84; 182; 112; 128; 40; 13; 30;
    198; 152; 33; 188; 182; 168; 131; 147; 150; 249; 101; 171; 111; 247; 42; 112 ].

Definition is_lowerhex (c : ascii) : bool :=
  Url.in_range 48 57 c || Url.in_range 97 102 c.

Fixpoint all_bytes (p : ascii -> bool) (s : string) : bool :=
  match s with
  | EmptyString => true
  | String c r => p c && all_bytes p r
  end.

(** *** The watch loop

    What the loop does to its collaborators is recorded, newest first, in
    a trace kept next to the world. *)

Inductive Event : Type :=
| EvLongPoll (listeningConfigs : string)
| EvGetConfig (dataID group tenant : string)
| EvHandler (dataID group tenant : string)
| EvSleep (d : Z).

Record St (W : Type) : Type := mkSt { world : W; trace : list Event }.

Arguments mkSt {W} world trace.
Arguments world {W} s.
Arguments trace {W} s.

(** [type ChangeHandler func(dataID, group, tenant string) error] *)
Definition ChangeHandler (W : Type) : Type :=
  string -> string -> string -> M W (option string).

Definition in_world {W A : Type} (m : M W A) : M (St W) A :=
  fun s => match m (world s) with
           | Ok a w => Ok a (mkSt w (trace s))
           | Panicked w => Panicked (mkSt w (trace s))
           end.

Definition emit {W : Type} (e : Event) : M (St W) unit :=
  fun s => Ok tt (mkSt (world s) (e :: trace s)).

(** [fmt.Sprintf("%s_%s_%s", dataID, group, tenant)] *)
Definition item_key (dataID group tenant : string) : string :=
  dataID +:+ "_" +:+ group +:+ "_" +:+ tenant.

(** [currentItems[key] = &items[i]]: the map holds pointers into the
    slice [items], modelled by the index pointed to. *)
Fixpoint index_items (i : nat) (items : list ConfigItem) (m : gmap string nat)
  : gmap string nat :=
  match items with
  | [] => m
  | it :: rest =>
      index_items (S i) rest (<[item_key (DataID it) (Group it) (Tenant it) := i]> m)
  end.

Definition currentItems_of (items : list ConfigItem) : gmap string nat :=
  index_items 0 items ∅.

(** [item, ok := currentItems[key]] followed by a read through [item]. *)
Definition lookup_item (cur : gmap string nat) (items : list ConfigItem) (key : string)
  : option (nat * ConfigItem) :=
  match cur !! key with
  | Some i => match items !! i with
              | Some it => Some (i, it)
              | None => None
              end
  | None => None
  end.

(** [item.MD5 = v] through the pointer [&items[i]] *)
Definition set_MD5 (items : list ConfigItem) (i : nat) (v : string) : list ConfigItem :=
  match items !! i with
  | Some it => <[i := {| DataID := DataID it; Group := Group it;
                         Tenant := Tenant it; MD5 := v |}]> items
  | None => items
  end.

(** The [range currentItems] loop that looks for a tenant, run over the
    order [ord] in which the map yields its entries. *)
Fixpoint find_tenant (ord : list (string * nat)) (items : list ConfigItem)
  (dataID group normalizedTenant : string) : string :=
  match ord with
  | [] => normalizedTenant
  | (_, i) :: rest =>
      match items !! i with
      | Some item =>
          if String.eqb (DataID item) dataID && String.eqb (Group item) group
          then Tenant item
          else find_tenant rest items dataID group normalizedTenant
      | None => find_tenant rest items dataID group normalizedTenant
      end
  end.

(** [strings.Contains(err.Error(), "404") || strings.Contains(err.Error(), "not exist")] *)
Definition is_not_found (msg : string) : bool :=
  Contains msg "404" || Contains msg "not exist".

(** How far a call has got: it has returned, or it is still in its loop
    after the iterations it was given. *)
Inductive Outcome (A : Type) : Type :=
| Returned (a : A)
| Running.

Arguments Returned {A} a.
Arguments Running {A}.

(** The fingerprint the Watch Set holds for a key. *)
Definition stored_MD5 (cur : gmap string nat) (items : list ConfigItem) (key : string)
  : option string :=
  match lookup_item cur items key with
  | Some (_, item) => Some (MD5 item)
  | None => None
  end.

(** How often the trace shows the handler called. *)
Fixpoint handler_calls (tr : list Event) : nat :=
  match tr with
  | [] => 0
  | EvHandler _ _ _ :: r => S (handler_calls r)
  | _ :: r => handler_calls r
  end.

(** The state a computation ends in, panic or not. *)
Definition final_state {S A : Type} (r : Res S A) : S :=
  match r with
  | Ok _ s => s
  | Panicked s => s
  end.

Section Engine.

Context {W : Type} (E : Env W).

(** [longPoll]; [DoError] also stands for a failing
    [http.NewRequestWithContext]. *)
Definition longPoll (listeningConfigs : string) : M W (list ConfigItem * option string) :=
  let* r := call (post_listener E listeningConfigs) in
  match r with
  | DoError msg => ret ([], Some msg)
  | DoResponse resp =>
      if negb (StatusCode resp =? 200)%Z
      then ret ([], Some ("listener returned status " +:+ itoa (StatusCode resp)
                          +:+ ": " +:+ Body resp))
      else match ReadErr resp with
           | Some msg => ret ([], Some msg)
           | None =>
               if (String.length (Body resp) =? 0)%nat then ret ([], None)
               else ret (parseChangedConfigs (Body resp), None)
           end
  end.

(** [getConfig]: content, fingerprint and error. *)
Definition getConfig (dataID group tenant : string) : M W (string * string * option string) :=
  let* r := call (get_configs E dataID group tenant) in
  match r with
  | DoError msg => ret ("", "", Some msg)
  | DoResponse resp =>
      if negb (StatusCode resp =? 200)%Z
      then ret ("", "", Some ("get config returned status " +:+ itoa (StatusCode resp)
                              +:+ ": " +:+ Body resp))
      else match ReadErr resp with
           | Some msg => ret ("", "", Some msg)
           | None =>
               let contentMD5 :=
                 if String.eqb (ContentMD5 resp) "" then calculateMD5 (Body resp)
                 else ContentMD5 resp in
               ret (Body resp, contentMD5, None)
           end
  end.

(** Lines 122-131: the tenant used to build the key. *)
Definition normalize_tenant (cur : gmap string nat) (items : list ConfigItem)
  (changed : ConfigItem) : M W string :=
  if String.eqb (Tenant changed) "" then
    let* ord := call (map_range E cur) in
    ret (find_tenant ord items (DataID changed) (Group changed) (Tenant changed))
  else ret (Tenant changed).

Definition fetch (changed : ConfigItem) : M (St W) (string * string * option string) :=
  let* _ := emit (EvGetConfig (DataID changed) (Group changed) (Tenant changed)) in
  in_world (getConfig (DataID changed) (Group changed) (Tenant changed)).

Definition dispatch (handler : ChangeHandler W) (changed : ConfigItem)
  : M (St W) (option string) :=
  let* _ := emit (EvHandler (DataID changed) (Group changed) (Tenant changed)) in
  in_world (handler (DataID changed) (Group changed) (Tenant changed)).

(** Lines 136-181, what is done with the answer of [getConfig]; the
    result is the slice [items] afterwards. *)
Definition resolve_change (handler : ChangeHandler W) (cur : gmap string nat)
  (items : list ConfigItem) (changed : ConfigItem) (key newMD5 : string)
  (err : option string) : M (St W) (list ConfigItem) :=
  match err with
  | Some msg =>
      if is_not_found msg then
        match lookup_item cur items key with
        | Some (i, item) =>
            if String.eqb (MD5 item) "" then ret items
            else
              let* _ := dispatch handler changed in
              ret (set_MD5 items i "")
        | None => ret items
        end
      else ret items
  | None =>
      let same :=
        match lookup_item cur items key with
        | Some (_, item) => String.eqb (MD5 item) newMD5
        | None => false
        end in
      if same then ret items
      else
        let* herr := dispatch handler changed in
        match herr with
        | Some _ => ret items
        | None =>
            match lookup_item cur items key with
            | Some (i, _) => ret (set_MD5 items i newMD5)
            | None => ret items
            end
        end
  end.

(** The body of [for _, changed := range changedItems] (lines 121-181). *)
Definition process_change (handler : ChangeHandler W) (cur : gmap string nat)
  (items : list ConfigItem) (changed : ConfigItem) : M (St W) (list ConfigItem) :=
  let* normalizedTenant := in_world (normalize_tenant cur items changed) in
  let key := item_key (DataID changed) (Group changed) normalizedTenant in
  let* '(_, newMD5, err) := fetch changed in
  resolve_change handler cur items changed key newMD5 err.

Fixpoint process_changes (handler : ChangeHandler W) (cur : gmap string nat)
  (items : list ConfigItem) (changedItems : list ConfigItem) : M (St W) (list ConfigItem) :=
  match changedItems with
  | [] => ret items
  | changed :: rest =>
      let* items' := process_change handler cur items changed in
      process_changes handler cur items' rest
  end.

(** The [for] loop of [StartListening], at most [n] iterations of it. *)
Fixpoint listen_loop (n : nat) (handler : ChangeHandler W) (cur : gmap string nat)
  (items : list ConfigItem) : M (St W) (Outcome (option string) * list ConfigItem) :=
  match n with
  | O => ret (Running, items)
  | S n' =>
      let* done := in_world (call (ctx_cancelled E)) in
      if (done : bool) then ret (Returned None, items)
      else
        let listeningConfigs := buildListeningConfigs items in
        let* _ := emit (EvLongPoll listeningConfigs) in
        let* '(changedItems, err) := in_world (longPoll listeningConfigs) in
        match err with
        | Some _ =>
            let* cancelled := in_world (call (ctx_cancelled E)) in
            if (cancelled : bool) then ret (Returned None, items)
            else
              let* _ := emit (EvSleep (5 * Second)) in
              let* _ := in_world (call (time_Sleep E (5 * Second))) in
              listen_loop n' handler cur items
        | None =>
            if (0 <? length changedItems)%nat then
              let* items' := process_changes handler cur items changedItems in
              listen_loop n' handler cur items'
            else listen_loop n' handler cur items
        end
  end.

Definition StartListening (n : nat) (items : list ConfigItem) (handler : ChangeHandler W)
  : M (St W) (Outcome (option string) * list ConfigItem) :=
  listen_loop n handler (currentItems_of items) items.

End Engine.

End Listener.

(** ** Package [sync]: the skill synchronizer *)

Module Sync.

Import Strings Listener.

(** The fields of [SkillSyncer] the code below reads: [s.client.Namespace]
    and [s.outputDir]. *)
Record SkillSyncer : Type := mkSkillSyncer {
  Namespace : string;
  outputDir : string
}.

(** [calculateMD5] is a helper function (exported from listener package). *)
Definition calculateMD5 (content : string) : string := Listener.CalculateMD5 content.

Section Orchestrator.

Context {W : Type} (E : Env W).

(** The body of [for _, skillName := range skillNames] (lines 51-107),
    on the two accumulators [items] and [existingCount].  Output written
    with [fmt.Printf] is left out; the slice expression [initialMD5[:8]]
    that one of these calls evaluates is kept, since it panics on a short
    string. *)
Definition seed_one (s : SkillSyncer) (acc : list ConfigItem * nat) (skillName : string)
  : M W (list ConfigItem * nat) :=
  let group := "skill_" +:+ skillName in
  let* '(content, err) := call (client_GetConfig E "skill.json" group) in
  match err with
  | Some msg =>
      if is_not_found msg then
        let skillPath := filepath_Join E (outputDir s) skillName in
        let* statErr := call (os_Stat E skillPath) in
        let* _ := match statErr with
                  | None => call (os_RemoveAll E skillPath)
                  | Some _ => ret None
                  end in
        ret ((fst acc ++ [ {| DataID := "skill.json"; Group := group;
                              Tenant := Namespace s; MD5 := "" |} ])%list, snd acc)
      else ret acc
  | None =>
      if String.eqb content "" then ret acc
      else
        let initialMD5 := calculateMD5 content in
        if (String.length initialMD5 <? 8)%nat then panic
        else
          let* gerr := call (skill_GetSkill E skillName (outputDir s)) in
          match gerr with
          | Some _ => ret acc
          | None =>
              ret ((fst acc ++ [ {| DataID := "skill.json"; Group := group;
                                    Tenant := Namespace s; MD5 := initialMD5 |} ])%list,
                   S (snd acc))
          end
  end.

Fixpoint seed_all (s : SkillSyncer) (acc : list ConfigItem * nat) (skillNames : list string)
  : M W (list ConfigItem * nat) :=
  match skillNames with
  | [] => ret acc
  | skillName :: rest =>
      let* acc' := seed_one s acc skillName in
      seed_all s acc' rest
  end.

(** The closure [handler] of [StartSyncMultiple] (lines 123-159). *)
Definition handler (s : SkillSyncer) : ChangeHandler W :=
  fun dataID grp tenant =>
    let skillName := if HasPrefix grp "skill_" then TrimPrefix grp "skill_" else "" in
    if negb (String.eqb skillName "") then
      let* '(content, err) := call (client_GetConfig E dataID grp) in
      if match err with Some _ => true | None => false end || String.eqb content "" then
        let* msg := Error err in
        if is_not_found msg then
          let skillPath := filepath_Join E (outputDir s) skillName in
          let* _ := call (os_RemoveAll E skillPath) in
          ret None
        else ret (Some ("failed to fetch config: " +:+ msg))
      else
        let* gerr := call (skill_GetSkill E skillName (outputDir s)) in
        match gerr with
        | Some msg => ret (Some ("failed to sync skill: " +:+ msg))
        | None => ret None
        end
    else ret None.

(** [StartSyncMultiple], with the watch loop run for at most [n]
    iterations. *)
Definition StartSyncMultiple (n : nat) (s : SkillSyncer) (skillNames : list string)
  : M (St W) (Outcome (option string)) :=
  if (length skillNames =? 0)%nat then ret (Returned (Some "no skills specified"))
  else
    let* seeded := in_world (seed_all s ([], 0%nat) skillNames) in
    if (length (fst seeded) =? 0)%nat
    then ret (Returned (Some "no skills specified for monitoring"))
    else
      let* r := StartListening E n (fst seeded) (handler s) in
      ret (fst r).

(** [StartSync] *)
Definition StartSync (n : nat) (s : SkillSyncer) (skillName : string)
  : M (St W) (Outcome (option string)) :=
  StartSyncMultiple n s [skillName].

End Orchestrator.

End Sync.

(** ** More of package [strings], and slice expressions *)

Module StringsMore.

(** [strings.Index(s, substr)]: the offset of the first occurrence, or -1. *)
Fixpoint Index (s substr : string) : Z :=
  if String.prefix substr s then 0%Z
  else match s with
       | EmptyString => (-1)%Z
       | String _ r =>
           let i := Index r substr in
           if (i <? 0)%Z then (-1)%Z else (i + 1)%Z
       end.

Fixpoint take_bytes (n : nat) (s : string) : string :=
  match n, s with
  | S n', String c r => String c (take_bytes n' r)
  | _, _ => EmptyString
  end.

(** [len(s)] *)
Definition len (s : string) : Z := Z.of_nat (String.length s).

(** The slice expression [s[lo:hi]]; [None] is the run-time panic for
    indices out of range. *)
Definition slice (s : string) (lo hi : Z) : option string :=
  if (0 <=? lo)%Z && (lo <=? hi)%Z && (hi <=? len s)%Z
  then Some (take_bytes (Z.to_nat (hi - lo)) (Strings.drop_bytes (Z.to_nat lo) s))
  else None.

End StringsMore.

(** ** Package [listener]: authentication *)

Module Auth.

Import Strings StringsMore.

Definition dquote : ascii := "034"%char.

(** The key searched for: accessToken between double quotes, a colon and
    the double quote that opens the value. *)
Definition token_marker : string :=
  String dquote ("accessToken" +:+ String dquote (":" +:+ String dquote EmptyString)).

(** [extractAccessToken]; [None] is a panic of one of its two slice
    expressions. *)
Definition extractAccessToken (body : string) : option string :=
  let start := Index body token_marker in
  if (start =? -1)%Z then Some EmptyString
  else
    let start := (start + len token_marker)%Z in
    match slice body start (len body) with
    | None => None
    | Some rest =>
        let end_ := Index rest (String dquote EmptyString) in
        if (end_ =? -1)%Z then Some EmptyString
        else slice body start (start + end_)
    end.

(** The fields of [ConfigListener] but its HTTP client. *)
Record ConfigListener : Type := mkConfigListener {
  serverAddr : string;
  username : string;
  password : string;
  accessToken : string
}.

(** [NewConfigListener] *)
Definition NewConfigListener (addr user pass : string) : ConfigListener :=
  {| serverAddr := addr; username := user; password := pass; accessToken := EmptyString |}.

Section Login.

Context {W : Type}.

(** [l.httpClient.PostForm(url, {username, password})] *)
Variable PostForm : string -> string -> string -> W -> HttpOutcome * W.

(** [Login]: the listener afterwards and the error returned. *)
Definition Login (l : ConfigListener) : M W (ConfigListener * option string) :=
  let loginURL := "http://" +:+ serverAddr l +:+ "/nacos/v1/auth/login" in
  let* r := call (PostForm loginURL (username l) (password l)) in
  match r with
  | DoError msg => ret (l, Some ("login failed: " +:+ msg))
  | DoResponse resp =>
      if negb (StatusCode resp =? 200)%Z
      then ret (l, Some ("login failed with status: " +:+ itoa (StatusCode resp)))
      else match ReadErr resp with
           | Some msg => ret (l, Some ("read login response failed: " +:+ msg))
           | None =>
               match extractAccessToken (Body resp) with
               | None => panic
               | Some token =>
                   if String.eqb token ""
                   then ret (l, Some "failed to extract access token from response")
                   else ret ({| serverAddr := serverAddr l; username := username l;
                                password := password l; accessToken := token |}, None)
               end
           end
  end.

End Login.

End Auth.

(** ** Package [config]: the server address *)

Module Config.

Import Strings.

(** The fields of [Config] that [GetServerAddr] reads. *)
Record Config : Type := mkConfig {
  Host : string;
  Port : Z
}.

(** [GetServerAddr] *)
Definition GetServerAddr (c : Config) : string :=
  if String.eqb (Host c) "" then ""
  else if (Port c =? 0)%Z then
         if Contains (Host c) ":" then Host c
         else Host c +:+ ":8848"
       else Host c +:+ ":" +:+ itoa (Port c).

End Config.

(** ** Package [client]: signing and fetching *)

Module Client.

Definition AuthTypeNacos : string := "nacos".
Definition AuthTypeAliyun : string := "aliyun".

(** The fields of [NacosClient] read by [GetConfig] and
    [setSpasHeaders]. *)
Record NacosClient : Type := mkNacosClient {
  ServerAddr : string;
  Namespace : string;
  AuthType : string;
  AccessKey : string;
  SecretKey : string;
  AccessToken : string
}.

(** A request in the making: its query parameters ([url.Values], one
    value a key) and its headers. *)
Record Request : Type := mkRequest {
  Query : gmap string string;
  Headers : gmap string string
}.

(** [getSignData] *)
Definition getSignData (tenant group timeStamp : string) : string :=
  if String.eqb tenant "" then
    if String.eqb group "" then timeStamp
    else group +:+ "+" +:+ timeStamp
  else if negb (String.eqb group "") then tenant +:+ "+" +:+ group +:+ "+" +:+ timeStamp
       else tenant +:+ "+" +:+ timeStamp.

Section Http.

Context {W : Type}.

(** [c.ensureTokenValid()]: the client afterwards (a login stores a
    token) and the error. *)
Variable ensureTokenValid : NacosClient -> W -> (NacosClient * option string) * W.

(** [time.Now().UnixMilli()] *)
Variable UnixMilli : W -> Z * W.

(** [spasSign]: HMAC-SHA1 of the data under the key, in base64. *)
Variable spasSign : string -> string -> string.

(** [req.Get(url)] *)
Variable Get : string -> Request -> W -> HttpOutcome * W.

(** [setSpasHeaders] *)
Definition setSpasHeaders (c : NacosClient) (req : Request) (tenant group : string)
  : W -> Request * W :=
  fun w =>
    if negb (String.eqb (AuthType c) AuthTypeAliyun)
       || String.eqb (AccessKey c) "" || String.eqb (SecretKey c) ""
    then (req, w)
    else
      let ts := itoa (fst (UnixMilli w)) in
      let normalizedTenant := if String.eqb tenant "public" then "" else tenant in
      let signData := getSignData normalizedTenant group ts in
      ({| Query := Query req;
          Headers := <["Spas-Signature" := spasSign signData (SecretKey c)]>
                       (<["Spas-AccessKey" := AccessKey c]>
                          (<["timeStamp" := ts]> (Headers req))) |},
       snd (UnixMilli w)).

(** [GetConfig]: the client afterwards, the content and the error. *)
Definition GetConfig (c : NacosClient) (dataID group : string)
  : W -> (NacosClient * (string * option string)) * W :=
  fun w =>
    let '(c1, err, w1) := ensureTokenValid c w in
    match err with
    | Some msg => (c1, ("", Some msg), w1)
    | None =>
        let params := <["group" := group]> (<["dataId" := dataID]> ∅) in
        let params := if negb (String.eqb (Namespace c1) "")
                      then <["tenant" := Namespace c1]> params else params in
        let params := if String.eqb (AuthType c1) AuthTypeNacos
                         && negb (String.eqb (AccessToken c1) "")
                      then <["accessToken" := AccessToken c1]> params else params in
        let apiURL := "http://" +:+ ServerAddr c1 +:+ "/nacos/v1/cs/configs" in
        let '(req, w2) := setSpasHeaders c1 {| Query := params; Headers := ∅ |}
                            (Namespace c1) group w1 in
        let '(r, w3) := Get apiURL req w2 in
        match r with
        | DoError msg => (c1, ("", Some ("get config failed: " +:+ msg)), w3)
        | DoResponse resp =>
            if negb (StatusCode resp =? 200)%Z
            then (c1, ("", Some ("get config failed: status=" +:+ itoa (StatusCode resp))), w3)
            else (c1, (Body resp, None), w3)
        end
    end.

End Http.

End Client.

(** ** Package [skill]: listing and fetching skills *)

Module Skill.

Import Strings.

(** The fields of [client.Config] and [client.ConfigListResponse] that
    [ListSkills] reads. *)
Record Config : Type := mkConfig {
  DataID : string;
  Group : string;
  GroupName : string
}.

Record ConfigListResponse : Type := mkConfigListResponse {
  TotalCount : Z;
  PageItems : list Config
}.

(** The loop of [ListSkills] over [configs.PageItems]. *)
Fixpoint skills_of (items : list Config) (skills : list string) : list string :=
  match items with
  | [] => skills
  | config :: rest =>
      let groupName := if String.eqb (GroupName config) "" then Group config
                       else GroupName config in
      if String.eqb (DataID config) "skill.json" && HasPrefix groupName "skill_"
      then skills_of rest (skills ++ [TrimPrefix groupName "skill_"])%list
      else skills_of rest skills
  end.

Section Service.

Context {W : Type}.

(** [s.client.ListConfigs(dataID, groupName, namespaceID, pageNo, pageSize)]:
    a response or an error. *)
Variable ListConfigs :
  string -> string -> string -> Z -> Z -> W -> (ConfigListResponse + string) * W.

(** [s.getSkillWithValidation(skillName, outputDir)] *)
Variable getSkillWithValidation : string -> string -> W -> option string * W.

(** [time.Sleep] *)
Variable Sleep : Z -> W -> unit * W.

(** [ListSkills]: the names, the total count and the error. *)
Definition ListSkills (skillName : string) (pageNo pageSize : Z)
  : M W (list string * Z * option string) :=
  let groupFilter := if negb (String.eqb skillName "")
                     then "skill_*" +:+ skillName +:+ "*"
                     else "skill_*" in
  let* r := call (ListConfigs "skill.json" groupFilter "" pageNo pageSize) in
  match r with
  | inr err => ret ([], 0%Z, Some err)
  | inl configs => ret (skills_of (PageItems configs) [], TotalCount configs, None)
  end.

Definition maxRetries : Z := 3.

Definition retryDelay : Z := 3 * Second.

(** The [for] loop of [GetSkill] from [attempt] on, with [remaining]
    the number of values [attempt] can still take up to [maxRetries];
    when there is none the loop is left and the last [return] is reached. *)
Fixpoint GetSkill_from (remaining : nat) (attempt : Z) (skillName outputDir : string)
  : M W (option string) :=
  match remaining with
  | O => ret (Some ("重试 " +:+ itoa maxRetries +:+ " 次后仍失败"))
  | S remaining' =>
      let* err := call (getSkillWithValidation skillName outputDir) in
      match err with
      | None => ret None
      | Some msg =>
          if Contains msg "uniformId mismatch" then
            if (attempt <? maxRetries)%Z then
              let* _ := call (Sleep retryDelay) in
              GetSkill_from remaining' (attempt + 1)%Z skillName outputDir
            else ret (Some msg)
          else ret (Some msg)
      end
  end.

(** [GetSkill] *)
Definition GetSkill (skillName outputDir : string) : M W (option string) :=
  GetSkill_from (Z.to_nat maxRetries) 1%Z skillName outputDir.

End Service.

End Skill.

(** A byte that [url.QueryEscape] can put out: an unreserved character, a
    percent sign or a plus sign. *)
Definition url_safe (c : ascii) : bool :=
  negb (Url.shouldEscape c) || Ascii.eqb c "%" || Ascii.eqb c "+".

(** Counting the calls of an operation: the world is paired with a
    counter that [counting] steps and [passing] leaves alone. *)
Definition counting {W A : Type} (f : W -> A * W) : W * nat -> A * (W * nat) :=
  fun s => (fst (f (fst s)), (snd (f (fst s)), S (snd s))).

Definition passing {W A : Type} (f : W -> A * W) : W * nat -> A * (W * nat) :=
  fun s => (fst (f (fst s)), (snd (f (fst s)), snd s)).

(** The group a configuration is listed under: [GroupName], or [Group]
    when that is empty. *)
Definition listed_group (config : Skill.Config) : string :=
  if String.eqb (Skill.GroupName config) "" then Skill.Group config
  else Skill.GroupName config.

(** ** A scripted world

    To run the model: the world is a clock that every operation advances
    by one tick, and a script says what each operation answers at a tick.
    Maps are ranged over in the order of [map_to_list]. *)

Record Script : Type := mkScript {
  on_cancelled : nat -> bool;
  on_listener : nat -> string -> HttpOutcome;
  on_get : nat -> string -> string -> string -> HttpOutcome;
  on_client_get : nat -> string -> string -> string * option string;
  on_get_skill : nat -> string -> option string;
  on_stat : nat -> string -> option string;
  on_remove : nat -> string -> option string
}.

Definition scripted (sc : Script) : Env nat :=
  {| ctx_cancelled := fun w => (on_cancelled sc w, S w);
     post_listener := fun lc w => (on_listener sc w lc, S w);
     get_configs := fun d g t w => (on_get sc w d g t, S w);
     map_range := fun m w => (map_to_list m, S w);
     time_Sleep := fun _ w => (tt, S w);
     client_GetConfig := fun d g w => (on_client_get sc w d g, S w);
     skill_GetSkill := fun name _ w => (on_get_skill sc w name, S w);
     os_Stat := fun p w => (on_stat sc w p, S w);
     os_RemoveAll := fun p w => (on_remove sc w p, S w);
     filepath_Join := fun dir name => dir +:+ "/" +:+ name |}.

Definition status (code : Z) (body : string) : HttpOutcome :=
  DoResponse {| StatusCode := code; Body := body; ReadErr := None; ContentMD5 := "" |}.

(** Scripts in which only one collaborator matters. *)
Definition script_fetch (get : nat -> HttpOutcome) : Script :=
  {| on_cancelled := fun _ => false;
     on_listener := fun _ _ => status 200 "";
     on_get := fun w _ _ _ => get w;
     on_client_get := fun _ _ _ => ("", None);
     on_get_skill := fun _ _ => None;
     on_stat := fun _ _ => None;
     on_remove := fun _ _ => None |}.

Definition script_poll (cancelled : nat -> bool) (poll : nat -> HttpOutcome) : Script :=
  {| on_cancelled := cancelled;
     on_listener := fun w _ => poll w;
     on_get := fun _ _ _ _ => status 200 "";
     on_client_get := fun _ _ _ => ("", None);
     on_get_skill := fun _ _ => None;
     on_stat := fun _ _ => None;
     on_remove := fun _ _ => None |}.

Definition script_store (cancelled : nat -> bool)
  (client_get : string -> string * option string) (stat : string -> option string) : Script :=
  {| on_cancelled := cancelled;
     on_listener := fun _ _ => status 200 "";
     on_get := fun _ _ _ _ => status 200 "";
     on_client_get := fun _ _ g => client_get g;
     on_get_skill := fun _ _ => None;
     on_stat := fun _ p => stat p;
     on_remove := fun _ _ => None |}.

(** A handler that always answers [r]. *)
Definition handler_const (r : option string) : Listener.ChangeHandler nat :=
  fun _ _ _ w => Ok r (S w).

(** The data of the scenarios: one watched entry, in the default scope or
    under a tenant, and the notification the server sends for it. *)
Definition watched (tenant md5 : string) : list Listener.ConfigItem :=
  [ Listener.mkConfigItem "skill.json" "skill_demo" tenant md5 ].

Definition notified (tenant : string) : Listener.ConfigItem :=
  Listener.mkConfigItem "skill.json" "skill_demo" tenant "".

Definition gone : nat -> HttpOutcome :=
  fun _ => status 404 "config data not exist".

Definition found (md5 : string) : nat -> HttpOutcome :=
  fun _ => DoResponse {| StatusCode := 200; Body := "{}"; ReadErr := None;
                         ContentMD5 := md5 |}.

(** A script in which the store holds one skill and downloads fail. *)
Definition script_broken_download : Script :=
  {| on_cancelled := fun _ => false;
     on_listener := fun _ _ => status 200 "";
     on_get := fun _ _ _ _ =>
       DoResponse {| StatusCode := 200; Body := "{}"; ReadErr := None;
                     ContentMD5 := "f2" |};
     on_client_get := fun _ _ _ => ("{}", None);
     on_get_skill := fun _ _ => Some "disk full";
     on_stat := fun _ _ => None;
     on_remove := fun _ _ => None |}.

(** A script in which the store holds one skill with the content "{}". *)
Definition script_steady : Script :=
  {| on_cancelled := fun _ => false;
     on_listener := fun _ _ => status 200 "";
     on_get := fun _ _ _ _ => status 200 "{}";
     on_client_get := fun _ _ _ => ("{}", None);
     on_get_skill := fun _ _ => None;
     on_stat := fun _ _ => None;
     on_remove := fun _ _ => None |}.

(** A script for three skills: a is in the store, b is not, and the fetch
    of c fails. *)
Definition script_three_skills : Script :=
  script_store (fun _ => false)
    (fun g => if String.eqb g "skill_b" then ("", Some "get config failed: status=404")
              else if String.eqb g "skill_c" then ("", Some "get config failed: status=500")
                   else ("{}", None))
    (fun _ => None).

(** A script in which the entry skill.json of group skill_demo has the
    fingerprint "f1" under the tenant ns1 and "f-default" in the default
    scope. *)
Definition script_two_scopes : Script :=
  {| on_cancelled := fun _ => false;
     on_listener := fun _ _ => status 200 "";
     on_get := fun _ _ _ t =>
       DoResponse {| StatusCode := 200; Body := "{}"; ReadErr := None;
                     ContentMD5 := if String.eqb t "ns1" then "f1" else "f-default" |};
     on_client_get := fun _ _ _ => ("{}", None);
     on_get_skill := fun _ _ => None;
     on_stat := fun _ _ => None;
     on_remove := fun _ _ => None |}.

Definition two_scopes : Env nat := scripted script_two_scopes.

(** * Properties *)

Import Strings Url Listener.

(** ** Strings *)

Section StringFacts.

Lemma append_empty_l (s : string) : "" +:+ s = s.
Proof. reflexivity. Qed.

Lemma append_cons (c : ascii) (a b : string) : String c a +:+ b = String c (a +:+ b).
Proof. reflexivity. Qed.

Lemma append_empty_r (s : string) : s +:+ "" = s.
Proof.
  induction s as [|c s IH]; [reflexivity|].
  now rewrite append_cons, IH.
Qed.

Lemma append_assoc (a b c : string) : (a +:+ b) +:+ c = a +:+ (b +:+ c).
Proof.
  induction a as [|x a IH]; [reflexivity|].
  now rewrite !append_cons, IH.
Qed.

Lemma has_byte_append (c : ascii) (a b : string) :
  has_byte c (a +:+ b) = has_byte c a || has_byte c b.
Proof.
  induction a as [|x a IH]; [reflexivity|].
  rewrite append_cons. simpl. rewrite IH. now rewrite orb_assoc.
Qed.

Lemma Split_nonempty (s : string) (sep : ascii) : Split s sep <> [].
Proof.
  induction s as [|c s IH]; simpl; [discriminate|].
  destruct (Ascii.eqb c sep); [discriminate|].
  destruct (Split s sep); discriminate.
Qed.

Lemma Split_no_sep (s : string) (sep : ascii) :
  has_byte sep s = false -> Split s sep = [s].
Proof.
  induction s as [|c s IH]; simpl; intros H; [reflexivity|].
  apply orb_false_iff in H as [Hc Hs].
  rewrite Hc, (IH Hs). reflexivity.
Qed.

Lemma Split_append_sep (s r : string) (sep : ascii) :
  has_byte sep s = false ->
  Split (s +:+ String sep r) sep = s :: Split r sep.
Proof.
  induction s as [|c s IH]; intros H.
  - rewrite append_empty_l. simpl. now rewrite Ascii.eqb_refl.
  - simpl in H. apply orb_false_iff in H as [Hc Hs].
    rewrite append_cons. simpl. rewrite Hc, (IH Hs). reflexivity.
Qed.

Lemma Join_cons_empty (a : string) (rest : list string) :
  Join (a :: rest) "" = a +:+ Join rest "".
Proof.
  destruct rest as [|b rest]; simpl; [now rewrite append_empty_r | reflexivity].
Qed.

Lemma prefix_append (s r : string) : String.prefix s (s +:+ r) = true.
Proof.
  induction s as [|c s IH].
  - now destruct r.
  - rewrite append_cons. simpl.
    destruct (ascii_dec c c); [exact IH | congruence].
Qed.

Lemma Contains_unfold (s substr : string) :
  Contains s substr =
  if String.prefix substr s then true
  else match s with
       | EmptyString => false
       | String _ r => Contains r substr
       end.
Proof. destruct s; reflexivity. Qed.

Lemma Contains_prefix (s r : string) : Contains (s +:+ r) s = true.
Proof. rewrite Contains_unfold, prefix_append. reflexivity. Qed.

Lemma Contains_append (a s sub : string) :
  Contains s sub = true -> Contains (a +:+ s) sub = true.
Proof.
  intros H. induction a as [|c a IH]; [exact H|].
  rewrite append_cons, Contains_unfold, IH.
  now destruct (String.prefix sub (String c (a +:+ s))).
Qed.

End StringFacts.

(** ** Percent-encoding *)

Section UrlFacts.

Lemma QueryUnescape_escape_byte (c : ascii) (r : string) :
  QueryUnescape (escape_byte c +:+ r) = option_map (String c) (QueryUnescape r).
Proof.
  destruct c as [[] [] [] [] [] [] [] []]; reflexivity.
Qed.

(** Decoding undoes encoding. *)
Lemma QueryUnescape_QueryEscape (s : string) :
  QueryUnescape (QueryEscape s) = Some s.
Proof.
  induction s as [|c s IH]; [reflexivity|].
  cbn [QueryEscape]. rewrite QueryUnescape_escape_byte, IH. reflexivity.
Qed.

End UrlFacts.

(** ** The wire format of the long-poll call *)

Section WireFormat.

Lemma eqb_append_cons (a b : string) (c : ascii) :
  String.eqb (a +:+ String c b) "" = false.
Proof. destruct a; reflexivity. Qed.

Lemma delimiter_free_spec (s : string) :
  delimiter_free s = true -> has_byte x01 s = false /\ has_byte x02 s = false.
Proof.
  unfold delimiter_free. intros H. apply andb_true_iff in H as [H1 H2].
  split; now apply negb_true_iff.
Qed.

(** An entry is a line, free of the entry separator, followed by that
    separator; decoding the line gives the item back. *)
Lemma listening_entry_line (item : ConfigItem) :
  clean_item item = true ->
  exists line,
    listening_entry item = line +:+ String x01 ""
    /\ has_byte x01 line = false
    /\ parse_line line = [forget_MD5 item].
Proof.
  destruct item as [d g t m]. unfold clean_item, listening_entry, forget_MD5.
  cbn [DataID Group Tenant MD5].
  intros H.
  apply andb_true_iff in H as [H Ht]. apply andb_true_iff in H as [H Hm].
  apply andb_true_iff in H as [Hd Hg].
  apply delimiter_free_spec in Hd as [Hd1 Hd2]. apply delimiter_free_spec in Hg as [Hg1 Hg2].
  apply delimiter_free_spec in Hm as [Hm1 Hm2]. apply delimiter_free_spec in Ht as [Ht1 Ht2].
  destruct (String.eqb t "") eqn:Et; simpl.
  - apply String.eqb_eq in Et. subst t.
    exists (d +:+ String x02 (g +:+ String x02 m)). split; [|split].
    + now rewrite !append_assoc, !append_cons, !append_assoc, !append_cons.
    + rewrite !has_byte_append. simpl. rewrite has_byte_append. simpl.
      now rewrite Hd1, Hg1, Hm1.
    + unfold parse_line. rewrite eqb_append_cons.
      rewrite (Split_append_sep d _ x02 Hd2), (Split_append_sep g _ x02 Hg2),
        (Split_no_sep m x02 Hm2).
      reflexivity.
  - exists (d +:+ String x02 (g +:+ String x02 (m +:+ String x02 t))). split; [|split].
    + now rewrite !append_assoc, !append_cons, !append_assoc, !append_cons,
        !append_assoc, !append_cons.
    + rewrite !has_byte_append. simpl. rewrite has_byte_append. simpl.
      rewrite has_byte_append. simpl.
      now rewrite Hd1, Hg1, Hm1, Ht1.
    + unfold parse_line. rewrite eqb_append_cons.
      rewrite (Split_append_sep d _ x02 Hd2), (Split_append_sep g _ x02 Hg2),
        (Split_append_sep m _ x02 Hm2), (Split_no_sep t x02 Ht2).
      reflexivity.
Qed.

Lemma parse_joined_entries (items : list ConfigItem) :
  forallb clean_item items = true ->
  flat_map parse_line (Split (Join (map listening_entry items) "") x01)
  = map forget_MD5 items.
Proof.
  induction items as [|item items IH]; intros H; [reflexivity|].
  simpl in H. apply andb_true_iff in H as [Hi Hr].
  destruct (listening_entry_line item Hi) as (line & Hline & Hfree & Hparse).
  cbn [map]. rewrite Join_cons_empty, Hline, append_assoc, append_cons, append_empty_l.
  rewrite (Split_append_sep line _ x01 Hfree).
  cbn [flat_map]. rewrite Hparse, (IH Hr). reflexivity.
Qed.

(** C5. Serializing a Watch Set whose fields hold neither delimiter byte
    with [buildListeningConfigs] and decoding the payload with
    [parseChangedConfigs] gives back the same entries in the same order,
    each with its data-id, group and tenant and with no fingerprint; the
    tenant comes back empty exactly when it was empty (hence omitted). *)
Theorem build_parse_roundtrip (items : list ConfigItem) :
  forallb clean_item items = true ->
  parseChangedConfigs (buildListeningConfigs items) = map forget_MD5 items
  /\ map triple (parseChangedConfigs (buildListeningConfigs items)) = map triple items
  /\ length (parseChangedConfigs (buildListeningConfigs items)) = length items.
Proof.
  intros H.
  assert (Heq : parseChangedConfigs (buildListeningConfigs items) = map forget_MD5 items).
  { unfold parseChangedConfigs, buildListeningConfigs.
    rewrite QueryUnescape_QueryEscape. now apply parse_joined_entries. }
  rewrite Heq. split; [reflexivity|]. split.
  - rewrite map_map. reflexivity.
  - now rewrite length_map.
Qed.

Lemma build_parse_roundtrip_witness :
  let items := [ mkConfigItem "skill.json" "skill_demo" "" "f1";
                 mkConfigItem "a b%c" "g+1" "ns/1" "" ] in
  forallb clean_item items = true
  /\ parseChangedConfigs (buildListeningConfigs items)
     = [ mkConfigItem "skill.json" "skill_demo" "" "";
         mkConfigItem "a b%c" "g+1" "ns/1" "" ].
Proof.
  split; [reflexivity|].
  exact (proj1 (build_parse_roundtrip
                  [ mkConfigItem "skill.json" "skill_demo" "" "f1";
                    mkConfigItem "a b%c" "g+1" "ns/1" "" ] eq_refl)).
Defined.

End WireFormat.

(** ** The fingerprint function *)

Section Fingerprint.

Local Open Scope Z_scope.

Lemma length_le_bytes (k : nat) (n : Z) : length (Md5.le_bytes k n) = k.
Proof. revert n. induction k as [|k IH]; intros n; simpl; [reflexivity | now rewrite IH]. Qed.

Lemma le_bytes_range (k : nat) (n : Z) :
  Forall (fun b => 0 <= b < 256) (Md5.le_bytes k n).
Proof.
  revert n. induction k as [|k IH]; intros n; simpl; constructor; [|apply IH].
  change 255 with (Z.ones 8). rewrite Z.land_ones by lia.
  apply Z.mod_pos_bound. reflexivity.
Qed.

Lemma length_Sum (s : string) : length (Md5.Sum s) = 16%nat.
Proof. unfold Md5.Sum. rewrite !length_app, !length_le_bytes. reflexivity. Qed.

Lemma Sum_range (s : string) : Forall (fun b => 0 <= b < 256) (Md5.Sum s).
Proof. unfold Md5.Sum. repeat apply Forall_app_2; apply le_bytes_range. Qed.

Lemma length_hex_of_bytes (bs : list Z) :
  String.length (Md5.hex_of_bytes bs) = (2 * length bs)%nat.
Proof. induction bs as [|b bs IH]; simpl; [reflexivity | rewrite IH; lia]. Qed.

Lemma lowerhex_digit (n : Z) : 0 <= n < 16 -> is_lowerhex (Md5.lowerhex n) = true.
Proof.
  intros H. unfold Md5.lowerhex.
  assert (Hk : (Z.to_nat n < 16)%nat) by lia.
  revert Hk. generalize (Z.to_nat n) as k. intros k Hk.
  do 16 (destruct k as [|k]; [reflexivity|]). lia.
Qed.

Lemma hex_of_bytes_lowerhex (bs : list Z) :
  Forall (fun b => 0 <= b < 256) bs ->
  all_bytes is_lowerhex (Md5.hex_of_bytes bs) = true.
Proof.
  induction 1 as [|b bs Hb _ IH]; [reflexivity|].
  simpl. rewrite IH, !lowerhex_digit; [reflexivity| |].
  - change 15 with (Z.ones 4). rewrite Z.land_ones by lia.
    apply Z.mod_pos_bound. reflexivity.
  - rewrite Z.shiftr_div_pow2 by lia. change (2 ^ 4) with 16.
    split; [apply Z.div_pos; lia | apply Z.div_lt_upper_bound; lia].
Qed.

(** The digest is 32 lower-case hexadecimal characters, whatever the
    content. *)
Lemma CalculateMD5_shape (content : string) :
  String.length (CalculateMD5 content) = 32%nat
  /\ all_bytes is_lowerhex (CalculateMD5 content) = true.
Proof.
  unfold CalculateMD5. split.
  - now rewrite length_hex_of_bytes, length_Sum.
  - apply hex_of_bytes_lowerhex, Sum_range.
Qed.

(** C10, as the specification states it, fails: two different contents
    with one fingerprint. *)
Lemma CalculateMD5_collision :
  content_a <> content_b
  /\ CalculateMD5 content_a = CalculateMD5 content_b
  /\ ~ (forall a b : string, CalculateMD5 a = CalculateMD5 b <-> a = b).
Proof.
  assert (Hne : content_a <> content_b) by (vm_compute; discriminate).
  assert (Heq : CalculateMD5 content_a = CalculateMD5 content_b)
    by (vm_compute; reflexivity).
  split; [exact Hne|]. split; [exact Heq|].
  intros H. apply Hne, H, Heq.
Qed.

(** C10, amended. The fingerprint is a function of the content alone:
    equal contents have equal fingerprints, so different fingerprints mean
    different contents; and it is always 32 lower-case hexadecimal
    characters, the empty content included. *)
Theorem CalculateMD5_deterministic :
  forall a b : string,
    (a = b -> CalculateMD5 a = CalculateMD5 b)
    /\ (CalculateMD5 a <> CalculateMD5 b -> a <> b)
    /\ String.length (CalculateMD5 a) = 32%nat
    /\ all_bytes is_lowerhex (CalculateMD5 a) = true.
Proof.
  intros a b. split; [|split].
  - intros ->. reflexivity.
  - intros Hne ->. now apply Hne.
  - apply CalculateMD5_shape.
Qed.

End Fingerprint.

(** ** The change resolver and the dispatch of the handler *)

Section EngineFacts.

Context {W : Type} (E : Env W).

Implicit Types (handler : ChangeHandler W) (cur : gmap string nat)
  (items : list ConfigItem) (changed : ConfigItem) (s : St W).

Lemma dispatch_eval handler changed (w w' : W) (tr : list Event) (herr : option string) :
  handler (DataID changed) (Group changed) (Tenant changed) w = Ok herr w' ->
  dispatch handler changed (mkSt w tr)
  = Ok herr (mkSt w' (EvHandler (DataID changed) (Group changed) (Tenant changed) :: tr)).
Proof.
  intros H. unfold dispatch, emit, in_world, bind. cbn [world trace]. now rewrite H.
Qed.

Lemma process_change_eval handler cur items changed s (t c m : string)
  (err : option string) (w1 w2 : W) :
  normalize_tenant E cur items changed (world s) = Ok t w1 ->
  getConfig E (DataID changed) (Group changed) (Tenant changed) w1 = Ok (c, m, err) w2 ->
  process_change E handler cur items changed s
  = resolve_change handler cur items changed
      (item_key (DataID changed) (Group changed) t) m err
      (mkSt w2 (EvGetConfig (DataID changed) (Group changed) (Tenant changed) :: trace s)).
Proof.
  intros Hn Hf. unfold process_change, fetch, emit, in_world, bind.
  cbn [world trace]. rewrite Hn. cbn [world trace]. now rewrite Hf.
Qed.

Lemma lookup_item_set_MD5 cur items (k v : string) (i : nat) (item : ConfigItem) :
  lookup_item cur items k = Some (i, item) ->
  lookup_item cur (set_MD5 items i v) k
  = Some (i, {| DataID := DataID item; Group := Group item;
                Tenant := Tenant item; MD5 := v |}).
Proof.
  unfold lookup_item, set_MD5. intros H.
  destruct (cur !! k) as [j|]; [|discriminate].
  destruct (items !! j) as [it|] eqn:Hj; [|discriminate].
  injection H as -> ->. rewrite Hj.
  rewrite list_lookup_insert_eq; [reflexivity|].
  eapply lookup_lt_Some, Hj.
Qed.

Lemma stored_MD5_set_MD5 cur items (k v : string) (i : nat) (item : ConfigItem) :
  lookup_item cur items k = Some (i, item) ->
  stored_MD5 cur (set_MD5 items i v) k = Some v.
Proof.
  intros H. unfold stored_MD5. now rewrite (lookup_item_set_MD5 _ _ _ v _ _ H).
Qed.

Lemma eqb_false_of_neq (a b : string) : a <> b -> String.eqb a b = false.
Proof. intros H. now apply String.eqb_neq. Qed.

(** C1, amended. When a verdict is dispatched for a tracked key and the
    handler returns: after [Updated] the stored fingerprint is the new one
    if the handler succeeded and is left as it was if the handler failed;
    after [Deleted] it is empty, whether the handler succeeded or failed. *)
Theorem fingerprint_after_dispatch handler cur items changed s (t c m : string)
  (err herr : option string) (w1 w2 w3 : W) (i : nat) (item : ConfigItem) :
  normalize_tenant E cur items changed (world s) = Ok t w1 ->
  getConfig E (DataID changed) (Group changed) (Tenant changed) w1 = Ok (c, m, err) w2 ->
  lookup_item cur items (item_key (DataID changed) (Group changed) t) = Some (i, item) ->
  handler (DataID changed) (Group changed) (Tenant changed) w2 = Ok herr w3 ->
  match err with
  | Some msg => is_not_found msg = true /\ MD5 item <> ""
  | None => MD5 item <> m
  end ->
  exists items',
    process_change E handler cur items changed s
    = Ok items'
        (mkSt w3 (EvHandler (DataID changed) (Group changed) (Tenant changed)
                  :: EvGetConfig (DataID changed) (Group changed) (Tenant changed)
                  :: trace s))
    /\ stored_MD5 cur items' (item_key (DataID changed) (Group changed) t)
       = Some match err, herr with
              | Some _, _ => ""
              | None, None => m
              | None, Some _ => MD5 item
              end.
Proof.
  intros Hn Hf Hl Hh Hv.
  rewrite (process_change_eval _ _ _ _ _ _ _ _ _ _ _ Hn Hf).
  unfold resolve_change. rewrite Hl. destruct err as [msg|].
  - destruct Hv as [Hnf Hne]. rewrite Hnf, (eqb_false_of_neq _ _ Hne).
    unfold bind. rewrite (dispatch_eval _ _ _ _ _ _ Hh).
    eexists. split; [reflexivity|]. eapply stored_MD5_set_MD5, Hl.
  - rewrite (eqb_false_of_neq _ _ Hv).
    unfold bind. rewrite (dispatch_eval _ _ _ _ _ _ Hh).
    destruct herr as [e|]; (eexists; split; [reflexivity|]).
    + unfold stored_MD5. now rewrite Hl.
    + eapply stored_MD5_set_MD5, Hl.
Qed.

Lemma unchanged_step handler cur items changed s (t c m : string)
  (w1 w2 : W) (i : nat) (item : ConfigItem) :
  normalize_tenant E cur items changed (world s) = Ok t w1 ->
  getConfig E (DataID changed) (Group changed) (Tenant changed) w1 = Ok (c, m, None) w2 ->
  lookup_item cur items (item_key (DataID changed) (Group changed) t) = Some (i, item) ->
  MD5 item = m ->
  process_change E handler cur items changed s
  = Ok items
      (mkSt w2 (EvGetConfig (DataID changed) (Group changed) (Tenant changed) :: trace s)).
Proof.
  intros Hn Hf Hl Hm.
  rewrite (process_change_eval _ _ _ _ _ _ _ _ _ _ _ Hn Hf).
  unfold resolve_change. now rewrite Hl, Hm, String.eqb_refl.
Qed.

Lemma updated_step handler cur items changed s (t c m : string)
  (herr : option string) (w1 w2 w3 : W) (i : nat) (item : ConfigItem) :
  normalize_tenant E cur items changed (world s) = Ok t w1 ->
  getConfig E (DataID changed) (Group changed) (Tenant changed) w1 = Ok (c, m, None) w2 ->
  lookup_item cur items (item_key (DataID changed) (Group changed) t) = Some (i, item) ->
  MD5 item <> m ->
  handler (DataID changed) (Group changed) (Tenant changed) w2 = Ok herr w3 ->
  process_change E handler cur items changed s
  = Ok match herr with Some _ => items | None => set_MD5 items i m end
      (mkSt w3 (EvHandler (DataID changed) (Group changed) (Tenant changed)
                :: EvGetConfig (DataID changed) (Group changed) (Tenant changed)
                :: trace s)).
Proof.
  intros Hn Hf Hl Hm Hh.
  rewrite (process_change_eval _ _ _ _ _ _ _ _ _ _ _ Hn Hf).
  unfold resolve_change. rewrite Hl, (eqb_false_of_neq _ _ Hm).
  unfold bind. rewrite (dispatch_eval _ _ _ _ _ _ Hh).
  now destruct herr.
Qed.

Lemma deleted_step handler cur items changed s (t c m msg : string)
  (herr : option string) (w1 w2 w3 : W) (i : nat) (item : ConfigItem) :
  normalize_tenant E cur items changed (world s) = Ok t w1 ->
  getConfig E (DataID changed) (Group changed) (Tenant changed) w1
  = Ok (c, m, Some msg) w2 ->
  is_not_found msg = true ->
  lookup_item cur items (item_key (DataID changed) (Group changed) t) = Some (i, item) ->
  MD5 item <> "" ->
  handler (DataID changed) (Group changed) (Tenant changed) w2 = Ok herr w3 ->
  process_change E handler cur items changed s
  = Ok (set_MD5 items i "")
      (mkSt w3 (EvHandler (DataID changed) (Group changed) (Tenant changed)
                :: EvGetConfig (DataID changed) (Group changed) (Tenant changed)
                :: trace s)).
Proof.
  intros Hn Hf Hnf Hl Hm Hh.
  rewrite (process_change_eval _ _ _ _ _ _ _ _ _ _ _ Hn Hf).
  unfold resolve_change. rewrite Hnf, Hl, (eqb_false_of_neq _ _ Hm).
  unfold bind. now rewrite (dispatch_eval _ _ _ _ _ _ Hh).
Qed.

Lemma absent_step handler cur items changed s (t c m msg : string)
  (w1 w2 : W) (i : nat) (item : ConfigItem) :
  normalize_tenant E cur items changed (world s) = Ok t w1 ->
  getConfig E (DataID changed) (Group changed) (Tenant changed) w1
  = Ok (c, m, Some msg) w2 ->
  is_not_found msg = true ->
  lookup_item cur items (item_key (DataID changed) (Group changed) t) = Some (i, item) ->
  MD5 item = "" ->
  process_change E handler cur items changed s
  = Ok items
      (mkSt w2 (EvGetConfig (DataID changed) (Group changed) (Tenant changed) :: trace s)).
Proof.
  intros Hn Hf Hnf Hl Hm.
  rewrite (process_change_eval _ _ _ _ _ _ _ _ _ _ _ Hn Hf).
  unfold resolve_change. now rewrite Hnf, Hl, Hm.
Qed.

(** Writing a fingerprint changes no identity, so the tenant lookup does
    not see it. *)
Lemma find_tenant_set_MD5 (ord : list (string * nat)) items (i : nat) (v d g dflt : string) :
  find_tenant ord (set_MD5 items i v) d g dflt = find_tenant ord items d g dflt.
Proof.
  unfold set_MD5. destruct (items !! i) as [it|] eqn:Hi; [|reflexivity].
  induction ord as [|[k j] ord IH]; cbn [find_tenant]; [reflexivity|].
  destruct (decide (i = j)) as [<-|Hne].
  - rewrite list_lookup_insert_eq by (eapply lookup_lt_Some, Hi).
    rewrite Hi. cbn [DataID Group Tenant]. now rewrite IH.
  - rewrite list_lookup_insert_ne by assumption. now rewrite IH.
Qed.

Lemma normalize_tenant_set_MD5 cur items changed (i : nat) (v : string) (w : W) :
  normalize_tenant E cur (set_MD5 items i v) changed w
  = normalize_tenant E cur items changed w.
Proof.
  unfold normalize_tenant, bind, call, ret.
  destruct (String.eqb (Tenant changed) ""); [|reflexivity].
  now rewrite find_tenant_set_MD5.
Qed.

(** C9. When the fetch succeeds with the fingerprint the Watch Set holds
    for the key, the handler is not called and the Watch Set is left as it
    was: all the iteration does is the fetch.  In particular, once a
    notification has been handled successfully, delivering it again while
    the content is the same does just that. *)
Theorem duplicate_notification_suppressed handler cur items changed s (t c m : string)
  (w1 w2 : W) (i : nat) (item : ConfigItem) :
  normalize_tenant E cur items changed (world s) = Ok t w1 ->
  getConfig E (DataID changed) (Group changed) (Tenant changed) w1 = Ok (c, m, None) w2 ->
  lookup_item cur items (item_key (DataID changed) (Group changed) t) = Some (i, item) ->
  let get := EvGetConfig (DataID changed) (Group changed) (Tenant changed) in
  let call := EvHandler (DataID changed) (Group changed) (Tenant changed) in
  (MD5 item = m ->
   process_change E handler cur items changed s = Ok items (mkSt w2 (get :: trace s))
   /\ handler_calls (get :: trace s) = handler_calls (trace s)
   /\ stored_MD5 cur items (item_key (DataID changed) (Group changed) t) = Some m)
  /\ (forall w3 w4 w5 c',
        MD5 item <> m ->
        handler (DataID changed) (Group changed) (Tenant changed) w2 = Ok None w3 ->
        normalize_tenant E cur items changed w3 = Ok t w4 ->
        getConfig E (DataID changed) (Group changed) (Tenant changed) w4
        = Ok (c', m, None) w5 ->
        process_changes E handler cur items [changed; changed] s
        = Ok (set_MD5 items i m) (mkSt w5 (get :: call :: get :: trace s))
        /\ process_change E handler cur (set_MD5 items i m) changed
             (mkSt w3 (call :: get :: trace s))
           = Ok (set_MD5 items i m) (mkSt w5 (get :: call :: get :: trace s))
        /\ stored_MD5 cur (set_MD5 items i m)
             (item_key (DataID changed) (Group changed) t) = Some m).
Proof.
  intros Hn Hf Hl get call. split.
  - intros Hm. split; [|split].
    + eapply unchanged_step; eassumption.
    + reflexivity.
    + unfold stored_MD5. now rewrite Hl, Hm.
  - intros w3 w4 w5 c' Hm Hh Hn2 Hf2.
    assert (Hsecond :
      process_change E handler cur (set_MD5 items i m) changed
        (mkSt w3 (call :: get :: trace s))
      = Ok (set_MD5 items i m) (mkSt w5 (get :: call :: get :: trace s))).
    { eapply (unchanged_step handler cur (set_MD5 items i m) changed
                (mkSt w3 (call :: get :: trace s)) t c' m w4 w5).
      - cbn [world]. now rewrite normalize_tenant_set_MD5.
      - exact Hf2.
      - eapply lookup_item_set_MD5, Hl.
      - reflexivity. }
    subst get call. split; [|split].
    + cbn [process_changes]. unfold bind.
      rewrite (updated_step _ _ _ _ _ _ _ _ _ _ _ _ _ _ Hn Hf Hl Hm Hh).
      cbn [process_changes]. unfold bind. rewrite Hsecond. reflexivity.
    + exact Hsecond.
    + eapply stored_MD5_set_MD5, Hl.
Qed.

(** Neither the fetch nor the tenant lookup can panic. *)
Lemma getConfig_total (d g t : string) (w : W) :
  exists c m err w', getConfig E d g t w = Ok (c, m, err) w'.
Proof.
  unfold getConfig, bind, call, ret.
  destruct (get_configs E d g t w) as [[msg|resp] w']; cbn [fst snd]; [eauto|].
  destruct (negb (StatusCode resp =? 200)%Z); [eauto|].
  destruct (ReadErr resp); eauto.
Qed.

Lemma normalize_tenant_total cur items changed (w : W) :
  exists t w', normalize_tenant E cur items changed w = Ok t w'.
Proof.
  unfold normalize_tenant, bind, call, ret.
  destruct (String.eqb (Tenant changed) ""); eauto.
Qed.

Lemma resolve_change_trace handler cur items changed (key m : string)
  (err : option string) s :
  let tr := trace (final_state (resolve_change handler cur items changed key m err s)) in
  tr = trace s
  \/ tr = EvHandler (DataID changed) (Group changed) (Tenant changed) :: trace s.
Proof.
  assert (Hd : forall (k : option string -> M (St W) (list ConfigItem)),
             (forall r s', trace (final_state (k r s')) = trace s') ->
             trace (final_state (bind (dispatch handler changed) k s))
             = EvHandler (DataID changed) (Group changed) (Tenant changed) :: trace s).
  { intros k Hk. unfold dispatch, emit, in_world, bind. cbn [world trace].
    destruct (handler _ _ _ (world s)) as [r w'|w']; [|reflexivity].
    now rewrite Hk. }
  unfold resolve_change. cbv zeta. destruct err as [msg|].
  - destruct (is_not_found msg); [|now left].
    destruct (lookup_item cur items key) as [[i item]|]; [|now left].
    destruct (String.eqb (MD5 item) ""); [now left|].
    right. now apply Hd.
  - destruct (match lookup_item cur items key with
              | Some (_, item) => String.eqb (MD5 item) m
              | None => false
              end); [now left|].
    right. apply Hd. intros [e|] s'; [reflexivity|].
    now destruct (lookup_item cur items key) as [[i item]|].
Qed.

(** Whatever happens, an iteration fetches with the tenant of the
    notification and calls the handler, if at all, with that tenant. *)
Lemma process_change_trace handler cur items changed s :
  let tr := trace (final_state (process_change E handler cur items changed s)) in
  let get := EvGetConfig (DataID changed) (Group changed) (Tenant changed) in
  tr = get :: trace s
  \/ tr = EvHandler (DataID changed) (Group changed) (Tenant changed) :: get :: trace s.
Proof.
  destruct (normalize_tenant_total cur items changed (world s)) as (t & w1 & Hn).
  destruct (getConfig_total (DataID changed) (Group changed) (Tenant changed) w1)
    as (c & m & err & w2 & Hf).
  cbv zeta. rewrite (process_change_eval _ _ _ _ _ _ _ _ _ _ _ Hn Hf).
  exact (resolve_change_trace handler cur items changed _ m err _).
Qed.

(** The tenant found by ranging over the map is that of a tracked entry
    with the data-id and group looked for, if the map yields one. *)
Lemma find_tenant_adopts (ord : list (string * nat)) items (d g dflt : string) :
  (exists k i item, In (k, i) ord /\ items !! i = Some item
                    /\ DataID item = d /\ Group item = g) ->
  exists k i item, In (k, i) ord /\ items !! i = Some item
                   /\ DataID item = d /\ Group item = g
                   /\ Tenant item = find_tenant ord items d g dflt.
Proof.
  induction ord as [|[k0 i0] ord IH]; intros (k & i & item & Hin & Hi & Hd & Hg).
  - destruct Hin.
  - cbn [find_tenant]. destruct (items !! i0) as [item0|] eqn:H0.
    + destruct (String.eqb (DataID item0) d && String.eqb (Group item0) g) eqn:Hm.
      * apply andb_true_iff in Hm as [Hd0 Hg0].
        apply String.eqb_eq in Hd0, Hg0.
        exists k0, i0, item0. repeat split; try assumption. now left.
      * destruct Hin as [Heq|Hin].
        { injection Heq as -> ->. rewrite Hi in H0. injection H0 as ->.
          rewrite <- Hd, <- Hg, !String.eqb_refl in Hm. discriminate. }
        destruct IH as (k' & i' & item' & Hin' & ?); [now exists k, i, item|].
        exists k', i', item'. split; [now right | assumption].
    + destruct Hin as [Heq|Hin].
      { injection Heq as -> ->. rewrite Hi in H0. discriminate. }
      destruct IH as (k' & i' & item' & Hin' & ?); [now exists k, i, item|].
      exists k', i', item'. split; [now right | assumption].
Qed.

(** While the stored fingerprint is empty, not-found answers are
    absorbed: any number of them leaves the Watch Set alone and calls no
    handler. *)
Lemma absent_steps handler cur items changed (t : string) (i : nat) (item : ConfigItem) :
  (forall w, exists w', normalize_tenant E cur items changed w = Ok t w') ->
  (forall w, exists c m msg w',
      getConfig E (DataID changed) (Group changed) (Tenant changed) w
      = Ok (c, m, Some msg) w' /\ is_not_found msg = true) ->
  lookup_item cur items (item_key (DataID changed) (Group changed) t) = Some (i, item) ->
  MD5 item = "" ->
  forall (n : nat) s,
  exists s',
    process_changes E handler cur items (repeat changed n) s = Ok items s'
    /\ handler_calls (trace s') = handler_calls (trace s).
Proof.
  intros Hnorm Hget Hl Hm n. induction n as [|n IH]; intros s.
  - exists s. split; reflexivity.
  - destruct (Hnorm (world s)) as (w1 & Hn).
    destruct (Hget w1) as (c & m & msg & w2 & Hf & Hnf).
    cbn [repeat process_changes]. unfold bind.
    rewrite (absent_step handler _ _ _ _ _ _ _ _ _ _ _ _ Hn Hf Hnf Hl Hm).
    destruct (IH (mkSt w2 (EvGetConfig (DataID changed) (Group changed) (Tenant changed)
                           :: trace s))) as (s' & Hrun & Hcalls).
    exists s'. split; [exact Hrun | exact Hcalls].
Qed.

(** C4. For a tracked key with a non-empty stored fingerprint whose fetch
    fails with not-found, any run of one or more notifications calls the
    handler exactly once: the first resets the fingerprint to empty, and
    while it is empty the later ones call nothing. *)
Theorem deletion_dispatched_once handler cur items changed (t : string)
  (i : nat) (item : ConfigItem) (n : nat) s :
  (forall w, exists w', normalize_tenant E cur items changed w = Ok t w') ->
  (forall w, exists c m msg w',
      getConfig E (DataID changed) (Group changed) (Tenant changed) w
      = Ok (c, m, Some msg) w' /\ is_not_found msg = true) ->
  (forall w, exists herr w',
      handler (DataID changed) (Group changed) (Tenant changed) w = Ok herr w') ->
  lookup_item cur items (item_key (DataID changed) (Group changed) t) = Some (i, item) ->
  MD5 item <> "" ->
  exists s1 s',
    process_change E handler cur items changed s = Ok (set_MD5 items i "") s1
    /\ handler_calls (trace s1) = S (handler_calls (trace s))
    /\ stored_MD5 cur (set_MD5 items i "")
         (item_key (DataID changed) (Group changed) t) = Some ""
    /\ process_changes E handler cur (set_MD5 items i "") (repeat changed n) s1
       = Ok (set_MD5 items i "") s'
    /\ handler_calls (trace s') = handler_calls (trace s1)
    /\ process_changes E handler cur items (repeat changed (S n)) s
       = Ok (set_MD5 items i "") s'.
Proof.
  intros Hnorm Hget Hhandler Hl Hm.
  destruct (Hnorm (world s)) as (w1 & Hn).
  destruct (Hget w1) as (c & m & msg & w2 & Hf & Hnf).
  destruct (Hhandler w2) as (herr & w3 & Hh).
  pose proof (deleted_step _ _ _ _ _ _ _ _ _ _ _ _ _ _ _ Hn Hf Hnf Hl Hm Hh) as Hfirst.
  destruct (absent_steps handler cur (set_MD5 items i "") changed t i
              {| DataID := DataID item; Group := Group item;
                 Tenant := Tenant item; MD5 := "" |}) with
    (n := n)
    (s := mkSt w3 (EvHandler (DataID changed) (Group changed) (Tenant changed)
                   :: EvGetConfig (DataID changed) (Group changed) (Tenant changed)
                   :: trace s))
    as (s' & Hrun & Hcalls).
  - intros w. rewrite normalize_tenant_set_MD5. apply Hnorm.
  - exact Hget.
  - eapply lookup_item_set_MD5, Hl.
  - reflexivity.
  - eexists _, s'. split; [exact Hfirst|]. split; [reflexivity|].
    split; [eapply stored_MD5_set_MD5, Hl|]. split; [exact Hrun|].
    split; [exact Hcalls|].
    cbn [repeat process_changes]. unfold bind. rewrite Hfirst. exact Hrun.
Qed.

(** How far the backfilled tenant reaches in the code.  For a notification
    without a tenant, when the map yields its entries in some order and a
    tracked entry has the data-id and group of the notification, the
    tenant found is that of such a tracked entry (the only possible one
    when all such entries agree on it) and it goes into the key; the
    fetch and the handler are passed the tenant of the notification
    itself, which is empty. *)
Theorem backfilled_tenant_is_for_the_key handler cur items changed s :
  Tenant changed = "" ->
  Permutation (fst (map_range E cur (world s))) (map_to_list cur) ->
  (exists k i item, cur !! k = Some i /\ items !! i = Some item
                    /\ DataID item = DataID changed /\ Group item = Group changed) ->
  exists t w1,
    normalize_tenant E cur items changed (world s) = Ok t w1
    /\ (exists k i item, cur !! k = Some i /\ items !! i = Some item
                         /\ DataID item = DataID changed /\ Group item = Group changed
                         /\ Tenant item = t)
    /\ (forall t0,
          (forall k i item, cur !! k = Some i -> items !! i = Some item ->
                            DataID item = DataID changed -> Group item = Group changed ->
                            Tenant item = t0) ->
          t = t0)
    /\ (forall c m err w2,
          getConfig E (DataID changed) (Group changed) "" w1 = Ok (c, m, err) w2 ->
          process_change E handler cur items changed s
          = resolve_change handler cur items changed
              (item_key (DataID changed) (Group changed) t) m err
              (mkSt w2 (EvGetConfig (DataID changed) (Group changed) "" :: trace s)))
    /\ (let tr := trace (final_state (process_change E handler cur items changed s)) in
        tr = EvGetConfig (DataID changed) (Group changed) "" :: trace s
        \/ tr = EvHandler (DataID changed) (Group changed) ""
                :: EvGetConfig (DataID changed) (Group changed) "" :: trace s).
Proof.
  intros Ht Hperm (k & i & item & Hk & Hi & Hd & Hg).
  assert (Hin : forall k i, In (k, i) (fst (map_range E cur (world s))) <-> cur !! k = Some i).
  { intros k' i'. rewrite <- list_elem_of_In, Hperm. apply elem_of_map_to_list. }
  destruct (find_tenant_adopts (fst (map_range E cur (world s))) items
              (DataID changed) (Group changed) (Tenant changed))
    as (k1 & i1 & item1 & Hin1 & Hi1 & Hd1 & Hg1 & Ht1).
  { exists k, i, item. repeat split; try assumption. now apply Hin. }
  assert (Hn : normalize_tenant E cur items changed (world s)
               = Ok (find_tenant (fst (map_range E cur (world s))) items
                       (DataID changed) (Group changed) (Tenant changed))
                    (snd (map_range E cur (world s)))).
  { unfold normalize_tenant. rewrite Ht. reflexivity. }
  eexists _, _. split; [exact Hn|]. split; [|split; [|split]].
  - exists k1, i1, item1. repeat split; try assumption. now apply Hin.
  - intros t0 Hall. rewrite <- Ht1.
    apply (Hall k1 i1 item1); [now apply Hin | assumption | assumption | assumption].
  - intros c m err w2 Hf.
    rewrite <- Ht in Hf |- * at 1.
    rewrite (process_change_eval handler _ _ _ _ _ _ _ _ _ _ Hn Hf).
    now rewrite Ht.
  - pose proof (process_change_trace handler cur items changed s) as Htr.
    cbv zeta in Htr. rewrite Ht in Htr. exact Htr.
Qed.

(** A notification that carries a tenant keeps it. *)
Lemma normalize_tenant_given cur items changed (w : W) :
  Tenant changed <> "" ->
  normalize_tenant E cur items changed w = Ok (Tenant changed) w.
Proof.
  intros H. unfold normalize_tenant. now rewrite (eqb_false_of_neq _ _ H).
Qed.

(** A 404 from the store is what the loop takes for a deletion. *)
Lemma getConfig_404 (d g t : string) (w w' : W) (resp : HttpResponse) :
  get_configs E d g t w = (DoResponse resp, w') ->
  StatusCode resp = 404%Z ->
  exists msg, getConfig E d g t w = Ok ("", "", Some msg) w' /\ is_not_found msg = true.
Proof.
  intros Hg Hs. unfold getConfig, bind, call, ret. rewrite Hg. cbn [fst snd].
  rewrite Hs. cbn [Z.eqb Pos.eqb negb]. eexists. split; [reflexivity|].
  unfold is_not_found. apply orb_true_iff. left.
  apply Contains_append. change (itoa 404) with "404". apply Contains_prefix.
Qed.

(** Every pointer the map holds points into the slice, at an item with
    that key. *)
Lemma index_items_lookup (pre items : list ConfigItem) (m : gmap string nat) :
  (forall k i, m !! k = Some i ->
     exists it, (pre ++ items)%list !! i = Some it
                /\ item_key (DataID it) (Group it) (Tenant it) = k) ->
  forall k i, index_items (length pre) items m !! k = Some i ->
    exists it, (pre ++ items)%list !! i = Some it
               /\ item_key (DataID it) (Group it) (Tenant it) = k.
Proof.
  revert pre m. induction items as [|it rest IH]; intros pre m Hm k i; cbn [index_items].
  - apply Hm.
  - replace (S (length pre)) with (length (pre ++ [it])%list)
      by (rewrite length_app; cbn; lia).
    replace (pre ++ it :: rest)%list with ((pre ++ [it]) ++ rest)%list
      by (now rewrite <- app_assoc).
    apply IH. intros k' i' Hk'. rewrite <- app_assoc. cbn [app].
    destruct (decide (item_key (DataID it) (Group it) (Tenant it) = k')) as [Heq|Hne].
    + rewrite Heq, lookup_insert_eq in Hk'. injection Hk' as <-.
      exists it. split; [apply list_lookup_middle; reflexivity | exact Heq].
    + rewrite lookup_insert_ne in Hk' by exact Hne.
      replace (pre ++ it :: rest)%list with (pre ++ [it] ++ rest)%list in * by reflexivity.
      now apply Hm.
Qed.

Lemma currentItems_of_lookup items (k : string) (i : nat) :
  currentItems_of items !! k = Some i ->
  exists it, items !! i = Some it /\ item_key (DataID it) (Group it) (Tenant it) = k.
Proof.
  apply (index_items_lookup [] items ∅). intros k' i' H.
  rewrite lookup_empty in H. discriminate.
Qed.

End EngineFacts.

(** ** The long-poll call and the watch loop *)

Section LoopFacts.

Context {W : Type} (E : Env W).

Implicit Types (handler : ChangeHandler W) (cur : gmap string nat)
  (items : list ConfigItem) (s : St W) (tr : list Event).

Lemma longPoll_total (lc : string) (w : W) :
  exists r w', longPoll E lc w = Ok r w'.
Proof.
  unfold longPoll, bind, call, ret.
  destruct (post_listener E lc w) as [[msg|resp] w']; cbn [fst snd]; [eauto|].
  destruct (negb (StatusCode resp =? 200)%Z); [eauto|].
  destruct (ReadErr resp); [eauto|].
  destruct (String.length (Body resp) =? 0)%nat; eauto.
Qed.

(** One turn of the loop, spelled out. *)
Lemma listen_loop_step (n : nat) handler cur items (w0 : W) tr :
  listen_loop E (S n) handler cur items (mkSt w0 tr)
  = let lc := buildListeningConfigs items in
    if fst (ctx_cancelled E w0)
    then Ok (Returned None, items) (mkSt (snd (ctx_cancelled E w0)) tr)
    else
      match longPoll E lc (snd (ctx_cancelled E w0)) with
      | Panicked w2 => Panicked (mkSt w2 (EvLongPoll lc :: tr))
      | Ok (changedItems, Some _) w2 =>
          if fst (ctx_cancelled E w2)
          then Ok (Returned None, items)
                 (mkSt (snd (ctx_cancelled E w2)) (EvLongPoll lc :: tr))
          else listen_loop E n handler cur items
                 (mkSt (snd (time_Sleep E (5 * Second) (snd (ctx_cancelled E w2))))
                       (EvSleep (5 * Second) :: EvLongPoll lc :: tr))
      | Ok (changedItems, None) w2 =>
          if (0 <? length changedItems)%nat
          then match process_changes E handler cur items changedItems
                       (mkSt w2 (EvLongPoll lc :: tr)) with
               | Ok items' s' => listen_loop E n handler cur items' s'
               | Panicked s' => Panicked s'
               end
          else listen_loop E n handler cur items (mkSt w2 (EvLongPoll lc :: tr))
      end.
Proof.
  cbn [listen_loop]. unfold bind, in_world, call, emit, ret. cbn [world trace].
  destruct (ctx_cancelled E w0) as [[|] w1]; cbn [world trace fst snd]; [reflexivity|].
  destruct (longPoll E (buildListeningConfigs items) w1)
    as [[changedItems [msg|]] w2|w2]; cbn [world trace fst snd]; [| |reflexivity].
  - destruct (ctx_cancelled E w2) as [[|] w3]; cbn [world trace fst snd]; reflexivity.
  - destruct (0 <? length changedItems)%nat; reflexivity.
Qed.

(** C6, amended. The long-poll call fails with a message made of the
    status and the body whenever the status is not 200; on 200 with an
    empty body it returns no changes and no error; and on 200 with a body
    that cannot be percent-decoded it returns no changes and no error
    either, so that the loop goes round again with the Watch Set untouched
    and nothing fetched or dispatched. *)
Theorem longPoll_outcomes (lc : string) (w w' : W) (resp : HttpResponse) :
  post_listener E lc w = (DoResponse resp, w') ->
  (StatusCode resp <> 200%Z ->
   longPoll E lc w
   = Ok ([], Some ("listener returned status " +:+ itoa (StatusCode resp)
                   +:+ ": " +:+ Body resp)) w')
  /\ (StatusCode resp = 200%Z -> ReadErr resp = None -> Body resp = "" ->
      longPoll E lc w = Ok ([], None) w')
  /\ (StatusCode resp = 200%Z -> ReadErr resp = None ->
      QueryUnescape (Body resp) = None ->
      longPoll E lc w = Ok ([], None) w'
      /\ forall (n : nat) handler cur items (w0 : W) tr,
           ctx_cancelled E w0 = (false, w) ->
           buildListeningConfigs items = lc ->
           listen_loop E (S n) handler cur items (mkSt w0 tr)
           = listen_loop E n handler cur items (mkSt w' (EvLongPoll lc :: tr))).
Proof.
  intros Hpost.
  assert (Hbad : StatusCode resp = 200%Z -> ReadErr resp = None ->
                 QueryUnescape (Body resp) = None ->
                 longPoll E lc w = Ok ([], None) w').
  { intros Hs Hr Hq. unfold longPoll, bind, call, ret. rewrite Hpost. cbn [fst snd].
    rewrite Hs, Hr. cbn [Z.eqb Pos.eqb negb].
    destruct (String.length (Body resp) =? 0)%nat; [reflexivity|].
    unfold parseChangedConfigs. now rewrite Hq. }
  split; [|split].
  - intros Hs. unfold longPoll, bind, call, ret. rewrite Hpost. cbn [fst snd].
    apply Z.eqb_neq in Hs. now rewrite Hs.
  - intros Hs Hr Hb. unfold longPoll, bind, call, ret. rewrite Hpost. cbn [fst snd].
    now rewrite Hs, Hr, Hb.
  - intros Hs Hr Hq. split; [now apply Hbad|].
    intros n handler cur items w0 tr Hc Hlc.
    rewrite listen_loop_step. cbv zeta. rewrite Hc, Hlc. cbn [fst snd].
    now rewrite (Hbad Hs Hr Hq).
Qed.

(** The trace only grows. *)
Lemma process_change_grows handler cur items (changed : ConfigItem) s :
  trace s `suffix_of` trace (final_state (process_change E handler cur items changed s)).
Proof.
  destruct (process_change_trace E handler cur items changed s) as [-> | ->].
  - now apply suffix_cons_r.
  - now do 2 apply suffix_cons_r.
Qed.

Lemma process_changes_grows handler cur (changedItems : list ConfigItem) items s :
  trace s `suffix_of`
  trace (final_state (process_changes E handler cur items changedItems s)).
Proof.
  revert items s. induction changedItems as [|changed rest IH]; intros items s.
  - reflexivity.
  - cbn [process_changes]. unfold bind.
    pose proof (process_change_grows handler cur items changed s) as Hg.
    destruct (process_change E handler cur items changed s) as [items' s'|s'];
      cbn [final_state] in *; [|exact Hg].
    etrans; [exact Hg | apply IH].
Qed.

Lemma listen_loop_grows (n : nat) handler cur items s :
  trace s `suffix_of` trace (final_state (listen_loop E n handler cur items s)).
Proof.
  revert items s. induction n as [|n IH]; intros items [w0 tr]; [reflexivity|].
  rewrite listen_loop_step. cbv zeta. cbn [trace].
  destruct (fst (ctx_cancelled E w0)); [reflexivity|].
  destruct (longPoll E (buildListeningConfigs items) (snd (ctx_cancelled E w0)))
    as [[changedItems [msg|]] w2|w2].
  - destruct (fst (ctx_cancelled E w2)); [now apply suffix_cons_r|].
    etrans; [|apply IH]. cbn [trace]. now do 2 apply suffix_cons_r.
  - destruct (0 <? length changedItems)%nat.
    + pose proof (process_changes_grows handler cur changedItems items
                    (mkSt w2 (EvLongPoll (buildListeningConfigs items) :: tr))) as Hg.
      destruct (process_changes E handler cur items changedItems _) as [items' s'|s'];
        cbn [final_state trace] in *.
      * etrans; [|apply IH]. etrans; [|exact Hg]. now apply suffix_cons_r.
      * etrans; [|exact Hg]. now apply suffix_cons_r.
    + etrans; [|apply IH]. cbn [trace]. now apply suffix_cons_r.
  - now apply suffix_cons_r.
Qed.

(** C8. When the long-poll call fails: if the context is found cancelled
    straight after the call, the loop returns nil without sleeping;
    otherwise it sleeps five seconds and goes round again, and then, if
    the context was cancelled meanwhile, it returns nil without polling,
    and if not, the next thing it does is to poll with the same payload. *)
Theorem backoff_then_retry_or_stop (n : nat) handler cur items (w0 w1 w2 : W) tr
  (changedItems : list ConfigItem) (msg : string) :
  ctx_cancelled E w0 = (false, w1) ->
  longPoll E (buildListeningConfigs items) w1 = Ok (changedItems, Some msg) w2 ->
  let poll := EvLongPoll (buildListeningConfigs items) in
  let sleep := EvSleep 5000000000 in
  (forall w3,
      ctx_cancelled E w2 = (true, w3) ->
      listen_loop E (S n) handler cur items (mkSt w0 tr)
      = Ok (Returned None, items) (mkSt w3 (poll :: tr)))
  /\ (forall w3 w4,
        ctx_cancelled E w2 = (false, w3) ->
        time_Sleep E (5 * Second) w3 = (tt, w4) ->
        listen_loop E (S n) handler cur items (mkSt w0 tr)
        = listen_loop E n handler cur items (mkSt w4 (sleep :: poll :: tr))
        /\ (forall w5,
              ctx_cancelled E w4 = (true, w5) ->
              listen_loop E (S (S n)) handler cur items (mkSt w0 tr)
              = Ok (Returned None, items) (mkSt w5 (sleep :: poll :: tr)))
        /\ (forall w5,
              ctx_cancelled E w4 = (false, w5) ->
              (poll :: sleep :: poll :: tr) `suffix_of`
              trace (final_state
                       (listen_loop E (S (S n)) handler cur items (mkSt w0 tr))))).
Proof.
  intros Hc Hp poll sleep. subst poll sleep. split.
  - intros w3 Hc2. rewrite listen_loop_step. cbv zeta.
    rewrite Hc. cbn [fst snd]. now rewrite Hp, Hc2.
  - intros w3 w4 Hc2 Hs.
    assert (Hstep : forall k,
      listen_loop E (S k) handler cur items (mkSt w0 tr)
      = listen_loop E k handler cur items
          (mkSt w4 (EvSleep 5000000000 :: EvLongPoll (buildListeningConfigs items) :: tr))).
    { intros k. rewrite listen_loop_step. cbv zeta.
      rewrite Hc. cbn [fst snd]. rewrite Hp, Hc2. cbn [fst snd]. now rewrite Hs. }
    split; [apply Hstep|]. split.
    + intros w5 Hc3. rewrite Hstep, listen_loop_step. cbv zeta. now rewrite Hc3.
    + intros w5 Hc3. rewrite Hstep, listen_loop_step. cbv zeta.
      rewrite Hc3. cbn [fst snd].
      destruct (longPoll_total (buildListeningConfigs items) w5)
        as ([changed2 [msg2|]] & w6 & Hp2); rewrite Hp2.
      * destruct (fst (ctx_cancelled E w6)); [reflexivity|].
        etrans; [|apply listen_loop_grows]. cbn [trace]. now apply suffix_cons_r.
      * destruct (0 <? length changed2)%nat.
        { pose proof (process_changes_grows handler cur changed2 items
                        (mkSt w6 (EvLongPoll (buildListeningConfigs items)
                                  :: EvSleep 5000000000
                                  :: EvLongPoll (buildListeningConfigs items) :: tr)))
            as Hg.
          destruct (process_changes E handler cur items changed2 _) as [items' s'|s'];
            cbn [final_state trace] in *; [|exact Hg].
          etrans; [exact Hg | apply listen_loop_grows]. }
        apply (listen_loop_grows n handler cur items
                 (mkSt w6 (EvLongPoll (buildListeningConfigs items)
                           :: EvSleep 5000000000
                           :: EvLongPoll (buildListeningConfigs items) :: tr))).
Qed.

End LoopFacts.

(** ** The synchronizer *)

Section SyncFacts.

Context {W : Type} (E : Env W).

Implicit Types (syncer : Sync.SkillSyncer) (acc : list ConfigItem * nat).

(** C3 fails on the code.  When the fetch inside the handler answers an
    empty content and no error, the test [err != nil || content == ""]
    lets the handler into the branch that calls [err.Error()] on the nil
    error: the handler panics, it neither returns an error nor completes. *)
Theorem handler_panics_on_empty_content syncer (dataID grp tenant : string) (w w' : W) :
  HasPrefix grp "skill_" = true ->
  TrimPrefix grp "skill_" <> "" ->
  client_GetConfig E dataID grp w = (("", None), w') ->
  Sync.handler E syncer dataID grp tenant w = Panicked w'.
Proof.
  intros Hp Hn Hg. unfold Sync.handler.
  rewrite Hp, (eqb_false_of_neq _ _ Hn). cbn [negb].
  unfold bind, call. rewrite Hg. reflexivity.
Qed.









End SyncFacts.

(** ** Scenarios

    The model run on the scripted world. *)

Section Scenarios.

(** RFC 1321 test vectors. *)
Example md5_empty : Listener.CalculateMD5 "" = "d41d8cd98f00b204e9800998ecf8427e".
Proof. vm_compute. reflexivity. Qed.

Example md5_abc : Listener.CalculateMD5 "abc" = "900150983cd24fb0d6963f7d28e17f72".
Proof. vm_compute. reflexivity. Qed.

Example md5_fox :
  Listener.CalculateMD5 "The quick brown fox jumps over the lazy dog"
  = "9e107d9d372bb6826bd81d3542a419d6".
Proof. vm_compute. reflexivity. Qed.

Example md5_long :
  Listener.CalculateMD5 "12345678901234567890123456789012345678901234567890123456789012345678901234567890"
  = "57edf4a22be3c955ac49da2e2107b67a".
Proof. vm_compute. reflexivity. Qed.

(** C1, as the specification states it, fails.  The entry is tracked with
    fingerprint "f1", the fetch answers 404 and the handler returns an
    error: the stored fingerprint is reset to empty all the same. *)
Lemma deleted_resets_despite_handler_error :
  let E := scripted (script_fetch gone) in
  let handler := handler_const (Some "disk full") in
  let cur := currentItems_of (watched "" "f1") in
  handler "skill.json" "skill_demo" "" 2%nat = Ok (Some "disk full") 3%nat
  /\ stored_MD5 cur (watched "" "f1") "skill.json_skill_demo_" = Some "f1"
  /\ process_change E handler cur (watched "" "f1") (notified "") (mkSt 0%nat [])
     = Ok (watched "" "")
         (mkSt 3%nat [ EvHandler "skill.json" "skill_demo" "";
                       EvGetConfig "skill.json" "skill_demo" "" ])
  /\ stored_MD5 cur (watched "" "") "skill.json_skill_demo_" = Some ""
  /\ stored_MD5 cur (watched "" "") "skill.json_skill_demo_"
     <> stored_MD5 cur (watched "" "f1") "skill.json_skill_demo_".
Proof. vm_compute. repeat split; discriminate. Qed.

Lemma fingerprint_after_dispatch_witness :
  exists items',
    process_change (scripted (script_fetch (found "f2")))
      (handler_const (Some "disk full")) (currentItems_of (watched "" "f1"))
      (watched "" "f1") (notified "") (mkSt 0%nat [])
    = Ok items'
        (mkSt 3%nat [ EvHandler "skill.json" "skill_demo" "";
                      EvGetConfig "skill.json" "skill_demo" "" ])
    /\ stored_MD5 (currentItems_of (watched "" "f1")) items' "skill.json_skill_demo_"
       = Some "f1".
Proof.
  refine (fingerprint_after_dispatch (scripted (script_fetch (found "f2")))
            (handler_const (Some "disk full")) (currentItems_of (watched "" "f1"))
            (watched "" "f1") (notified "") (mkSt 0%nat [])
            "" "{}" "f2" None (Some "disk full") 1%nat 2%nat 3%nat 0%nat
            (mkConfigItem "skill.json" "skill_demo" "" "f1") _ _ _ _ _).
  - vm_compute. reflexivity.
  - vm_compute. reflexivity.
  - vm_compute. reflexivity.
  - reflexivity.
  - discriminate.
Defined.

(** The backfilled tenant is not passed on: with the entry tracked under
    tenant "ns1" and a notification without tenant, "ns1" goes into the
    key, but the fetch and the handler are both given the empty tenant. *)
Lemma backfilled_tenant_not_passed_on :
  let E := scripted (script_fetch (found "f2")) in
  let cur := currentItems_of (watched "ns1" "f1") in
  normalize_tenant E cur (watched "ns1" "f1") (notified "") 0%nat = Ok "ns1" 1%nat
  /\ process_change E (handler_const None) cur (watched "ns1" "f1") (notified "")
       (mkSt 0%nat [])
     = Ok (watched "ns1" "f2")
         (mkSt 3%nat [ EvHandler "skill.json" "skill_demo" "";
                       EvGetConfig "skill.json" "skill_demo" "" ])
  /\ ~ In (EvGetConfig "skill.json" "skill_demo" "ns1")
          [ EvHandler "skill.json" "skill_demo" "";
            EvGetConfig "skill.json" "skill_demo" "" ]
  /\ ~ In (EvHandler "skill.json" "skill_demo" "ns1")
          [ EvHandler "skill.json" "skill_demo" "";
            EvGetConfig "skill.json" "skill_demo" "" ].
Proof.
  split; [vm_compute; reflexivity|]. split; [vm_compute; reflexivity|].
  split; intros [H | [H | []]]; discriminate H.
Qed.

(** C2 fails on the code.  The entry is tracked under tenant "ns1" with
    fingerprint "f1", which is still what the store holds under "ns1"; the
    default scope holds another content, of fingerprint "f-default".  For
    a notification without tenant the code finds "ns1" for the key but
    fetches with the empty tenant: it reads the default scope, takes the
    entry for changed, calls the handler with the empty tenant, and stores
    the fingerprint of the default scope in the entry of "ns1".  Fetched
    with the tenant found, the entry would have been unchanged. *)
Theorem backfill_fetches_default_scope :
  let cur := currentItems_of (watched "ns1" "f1") in
  normalize_tenant two_scopes cur (watched "ns1" "f1") (notified "") 0%nat
  = Ok "ns1" 1%nat
  /\ getConfig two_scopes "skill.json" "skill_demo" "ns1" 1%nat = Ok ("{}", "f1", None) 2%nat
  /\ process_change two_scopes (handler_const None) cur (watched "ns1" "f1") (notified "")
       (mkSt 0%nat [])
     = Ok (watched "ns1" "f-default")
         (mkSt 3%nat [ EvHandler "skill.json" "skill_demo" "";
                       EvGetConfig "skill.json" "skill_demo" "" ])
  /\ process_change two_scopes (handler_const None) cur (watched "ns1" "f1") (notified "ns1")
       (mkSt 0%nat [])
     = Ok (watched "ns1" "f1") (mkSt 1%nat [ EvGetConfig "skill.json" "skill_demo" "ns1" ]).
Proof.
  repeat split; vm_compute; reflexivity.
Qed.

Lemma backfilled_tenant_is_for_the_key_witness :
  exists t w1,
    normalize_tenant (scripted (script_fetch (found "f2")))
      (currentItems_of (watched "ns1" "f1")) (watched "ns1" "f1") (notified "") 0%nat
    = Ok t w1
    /\ t = "ns1".
Proof.
  destruct (backfilled_tenant_is_for_the_key (scripted (script_fetch (found "f2")))
              (handler_const None) (currentItems_of (watched "ns1" "f1"))
              (watched "ns1" "f1") (notified "") (mkSt 0%nat []))
    as (t & w1 & Hn & _ & Hall & _).
  - reflexivity.
  - apply Permutation_refl.
  - exists "skill.json_skill_demo_ns1", 0%nat,
      (mkConfigItem "skill.json" "skill_demo" "ns1" "f1").
    vm_compute. repeat split.
  - exists t, w1. split; [exact Hn|].
    apply Hall. intros k i item Hk Hi _ _.
    destruct i as [|i]; [|destruct i; discriminate Hi].
    injection Hi as <-. reflexivity.
Defined.

(** C3: the failing input, run. *)
Lemma handler_panics_on_empty_content_witness :
  Sync.handler
    (scripted (script_store (fun _ => false) (fun _ => ("", None)) (fun _ => None)))
    (Sync.mkSkillSyncer "" "/out") "skill.json" "skill_demo" "" 0%nat
  = Panicked 1%nat.
Proof.
  apply handler_panics_on_empty_content.
  - reflexivity.
  - vm_compute. discriminate.
  - reflexivity.
Defined.

Lemma deletion_dispatched_once_witness :
  exists s',
    process_changes (scripted (script_fetch gone)) (handler_const None)
      (currentItems_of (watched "ns1" "f1")) (watched "ns1" "f1")
      (repeat (notified "ns1") 4) (mkSt 0%nat [])
    = Ok (watched "ns1" "") s'
    /\ handler_calls (trace s') = 1%nat.
Proof.
  destruct (deletion_dispatched_once (scripted (script_fetch gone)) (handler_const None)
              (currentItems_of (watched "ns1" "f1")) (watched "ns1" "f1") (notified "ns1")
              "ns1" 0%nat (mkConfigItem "skill.json" "skill_demo" "ns1" "f1") 3
              (mkSt 0%nat []))
    as (s1 & s' & _ & H1 & _ & _ & Hrest & Hall).
  - intros w. exists w. reflexivity.
  - intros w.
    exists "", "", "get config returned status 404: config data not exist", (S w).
    split; reflexivity.
  - intros w. exists None, (S w). reflexivity.
  - vm_compute. reflexivity.
  - discriminate.
  - exists s'. split; [exact Hall|]. rewrite Hrest, H1. reflexivity.
Defined.

(** C6, as the specification states it, fails.  204 is a success status;
    with an empty body the long-poll call returns an error all the same,
    and the loop backs off for five seconds instead of polling again at
    once. *)
Lemma longPoll_204_is_an_error :
  let E := scripted (script_poll (fun _ => false) (fun _ => status 204 "")) in
  longPoll E "x" 0%nat = Ok ([], Some "listener returned status 204: ") 1%nat
  /\ longPoll E "x" 0%nat <> Ok ([], None) 1%nat
  /\ listen_loop E 1 (handler_const None) (currentItems_of (watched "" "f1"))
       (watched "" "f1") (mkSt 0%nat [])
     = Ok (Running, watched "" "f1")
         (mkSt 4%nat [ EvSleep 5000000000;
                       EvLongPoll (buildListeningConfigs (watched "" "f1")) ]).
Proof.
  split; [vm_compute; reflexivity|]. split; [vm_compute; discriminate|].
  vm_compute. reflexivity.
Qed.

Lemma longPoll_outcomes_witness :
  longPoll (scripted (script_poll (fun _ => false) (fun _ => status 503 "busy"))) "x" 0%nat
  = Ok ([], Some "listener returned status 503: busy") 1%nat
  /\ longPoll (scripted (script_poll (fun _ => false) (fun _ => status 200 "%zz"))) "x" 0%nat
     = Ok ([], None) 1%nat.
Proof.
  split.
  - refine (proj1 (longPoll_outcomes
                     (scripted (script_poll (fun _ => false) (fun _ => status 503 "busy")))
                     "x" 0%nat 1%nat
                     {| StatusCode := 503; Body := "busy"; ReadErr := None;
                        ContentMD5 := "" |} eq_refl) _).
    discriminate.
  - refine (proj1 (proj2 (proj2 (longPoll_outcomes
                     (scripted (script_poll (fun _ => false) (fun _ => status 200 "%zz")))
                     "x" 0%nat 1%nat
                     {| StatusCode := 200; Body := "%zz"; ReadErr := None;
                        ContentMD5 := "" |} eq_refl)) eq_refl eq_refl eq_refl)).
Defined.


Lemma backoff_then_retry_or_stop_witness :
  listen_loop
    (scripted (script_poll (fun w => (4 <=? w)%nat) (fun _ => DoError "connection refused")))
    2 (handler_const None) (currentItems_of (watched "" "f1")) (watched "" "f1")
    (mkSt 0%nat [])
  = Ok (Returned None, watched "" "f1")
      (mkSt 5%nat [ EvSleep 5000000000;
                    EvLongPoll (buildListeningConfigs (watched "" "f1")) ]).
Proof.
  refine (proj1 (proj2 (proj2 (backoff_then_retry_or_stop
            (scripted (script_poll (fun w => (4 <=? w)%nat)
                         (fun _ => DoError "connection refused")))
            0 (handler_const None) (currentItems_of (watched "" "f1")) (watched "" "f1")
            0%nat 1%nat 2%nat [] [] "connection refused" eq_refl _)
            3%nat 4%nat eq_refl eq_refl)) 5%nat eq_refl).
  vm_compute. reflexivity.
Defined.

Lemma duplicate_notification_suppressed_witness :
  process_change (scripted (script_fetch (found "f1"))) (handler_const None)
    (currentItems_of (watched "" "f1")) (watched "" "f1") (notified "") (mkSt 0%nat [])
  = Ok (watched "" "f1") (mkSt 2%nat [ EvGetConfig "skill.json" "skill_demo" "" ]).
Proof.
  refine (proj1 (proj1 (duplicate_notification_suppressed
            (scripted (script_fetch (found "f1"))) (handler_const None)
            (currentItems_of (watched "" "f1")) (watched "" "f1") (notified "")
            (mkSt 0%nat []) "" "{}" "f1" 1%nat 2%nat 0%nat
            (mkConfigItem "skill.json" "skill_demo" "" "f1") _ _ _) eq_refl)).
  - vm_compute. reflexivity.
  - vm_compute. reflexivity.
  - vm_compute. reflexivity.
Defined.

End Scenarios.

(** ** More on the wire format *)

Section WireFormatMore.

Lemma Split_pieces_free (s : string) (c : ascii) :
  Forall (fun p => has_byte c p = false) (Split s c).
Proof.
  induction s as [|a s IH]; cbn [Split].
  - repeat constructor.
  - destruct (Ascii.eqb a c) eqn:Hac; [constructor; [reflexivity | exact IH]|].
    destruct (Split s c) as [|h t]; [repeat constructor; cbn; now rewrite Hac|].
    inversion IH as [|? ? Hh Ht]; subst. constructor; [|exact Ht].
    cbn. now rewrite Hac, Hh.
Qed.

Lemma Split_pieces_keep (s : string) (c d : ascii) :
  has_byte d s = false -> Forall (fun p => has_byte d p = false) (Split s c).
Proof.
  induction s as [|a s IH]; cbn [Split has_byte]; intros H.
  - repeat constructor.
  - apply orb_false_iff in H as [Had Hs]. specialize (IH Hs).
    destruct (Ascii.eqb a c); [constructor; [reflexivity | exact IH]|].
    destruct (Split s c) as [|h t]; [repeat constructor; cbn; now rewrite Had|].
    inversion IH as [|? ? Hh Ht]; subst. constructor; [|exact Ht].
    cbn. now rewrite Had, Hh.
Qed.

Lemma Forall_nth_default {A : Type} (P : A -> Prop) (l : list A) (n : nat) (d : A) :
  Forall P l -> P d -> P (nth n l d).
Proof.
  intros Hl Hd. revert n. induction Hl as [|x l Hx _ IH]; intros [|n]; cbn; auto.
Qed.

Lemma parse_line_clean (line : string) :
  has_byte x01 line = false ->
  Forall (fun it => clean_item it = true /\ MD5 it = "") (parse_line line).
Proof.
  intros H1. unfold parse_line.
  destruct (String.eqb line ""); [constructor|].
  destruct (2 <=? length (Split line x02))%nat; [|constructor].
  pose proof (Split_pieces_free line x02) as H2.
  pose proof (Split_pieces_keep line x02 x01 H1) as H3.
  assert (Hf : forall n, delimiter_free (nth n (Split line x02) "") = true).
  { intros n. unfold delimiter_free.
    rewrite (Forall_nth_default (fun p => has_byte x02 p = false) _ n "" H2 eq_refl).
    rewrite (Forall_nth_default (fun p => has_byte x01 p = false) _ n "" H3 eq_refl).
    reflexivity. }
  constructor; [|constructor]. split; [|reflexivity].
  unfold clean_item. cbn [DataID Group Tenant MD5].
  rewrite !Hf. destruct (4 <=? length (Split line x02))%nat; [now rewrite Hf | reflexivity].
Qed.

Lemma parse_lines_clean (lines : list string) :
  Forall (fun l => has_byte x01 l = false) lines ->
  Forall (fun it => clean_item it = true /\ MD5 it = "") (flat_map parse_line lines).
Proof.
  induction 1 as [|l lines Hl _ IH]; cbn [flat_map]; [constructor|].
  apply Forall_app_2; [now apply parse_line_clean | exact IH].
Qed.

Lemma parse_clean (response : string) :
  Forall (fun it => MD5 it = "") (parseChangedConfigs response)
  /\ forallb clean_item (parseChangedConfigs response) = true.
Proof.
  assert (H : Forall (fun it => clean_item it = true /\ MD5 it = "")
                (parseChangedConfigs response)).
  { unfold parseChangedConfigs. destruct (QueryUnescape response) as [decoded|];
      [|constructor].
    apply parse_lines_clean, Split_pieces_free. }
  split.
  - eapply Forall_impl; [exact H|]. now intros it [_ Hm].
  - apply forallb_forall. intros it Hin.
    rewrite Forall_forall in H. now apply H, list_elem_of_In.
Qed.

(** X1. Whatever the server answers, the decoded notifications carry no
    fingerprint and none of their fields holds a delimiter byte. *)
Theorem parsed_items_clean (response : string) :
  Forall (fun it => MD5 it = "") (parseChangedConfigs response)
  /\ forallb clean_item (parseChangedConfigs response) = true
  /\ Forall (fun it => has_byte x01 (DataID it) = false /\ has_byte x02 (DataID it) = false
                       /\ has_byte x01 (Group it) = false /\ has_byte x02 (Group it) = false)
       (parseChangedConfigs response).
Proof.
  destruct (parse_clean response) as [Hm Hc]. split; [exact Hm|]. split; [exact Hc|].
  apply Forall_forall. intros it Hin.
  apply list_elem_of_In in Hin. rewrite forallb_forall in Hc. specialize (Hc it Hin).
  unfold clean_item in Hc.
  apply andb_true_iff in Hc as [Hc _]. apply andb_true_iff in Hc as [Hc _].
  apply andb_true_iff in Hc as [Hd Hg].
  apply delimiter_free_spec in Hd as [? ?]. apply delimiter_free_spec in Hg as [? ?].
  tauto.
Qed.

(** X2. Serializing what was decoded and decoding again changes nothing:
    the decoded list is a fixed point of encode-then-decode. *)
Theorem parse_build_parse (response : string) :
  parseChangedConfigs (buildListeningConfigs (parseChangedConfigs response))
  = parseChangedConfigs response.
Proof.
  destruct (parse_clean response) as [Hm Hc].
  unfold buildListeningConfigs.
  unfold parseChangedConfigs at 1. rewrite QueryUnescape_QueryEscape.
  rewrite (parse_joined_entries _ Hc). clear Hc.
  revert Hm. generalize (parseChangedConfigs response) as its. intros its Hm.
  induction Hm as [|it its Hit _ IH]; [reflexivity|].
  cbn [map]. rewrite IH. f_equal.
  destruct it as [d g t m]. cbn in Hit. subst m. reflexivity.
Qed.

Lemma QueryEscape_append (a b : string) :
  QueryEscape (a +:+ b) = QueryEscape a +:+ QueryEscape b.
Proof.
  induction a as [|c a IH]; [reflexivity|].
  rewrite append_cons. cbn [QueryEscape]. now rewrite IH, append_assoc.
Qed.

Lemma Join_app_empty (l1 l2 : list string) :
  Join (l1 ++ l2) "" = Join l1 "" +:+ Join l2 "".
Proof.
  induction l1 as [|a l1 IH]; [reflexivity|].
  change ((a :: l1) ++ l2)%list with (a :: (l1 ++ l2))%list.
  now rewrite !Join_cons_empty, IH, append_assoc.
Qed.

(** X3. The payload of a Watch Set made of two parts is the payload of the
    first followed by the payload of the second; the empty Watch Set has
    the empty payload. *)
Theorem buildListeningConfigs_app (items1 items2 : list ConfigItem) :
  buildListeningConfigs (items1 ++ items2)
  = buildListeningConfigs items1 +:+ buildListeningConfigs items2
  /\ buildListeningConfigs [] = "".
Proof.
  split; [|reflexivity].
  unfold buildListeningConfigs. now rewrite map_app, Join_app_empty, QueryEscape_append.
Qed.

Lemma all_bytes_append (p : ascii -> bool) (a b : string) :
  all_bytes p (a +:+ b) = all_bytes p a && all_bytes p b.
Proof.
  induction a as [|c a IH]; [reflexivity|].
  rewrite append_cons. cbn [all_bytes]. now rewrite IH, andb_assoc.
Qed.

Lemma escape_byte_safe (c : ascii) : all_bytes url_safe (escape_byte c) = true.
Proof. destruct c as [[] [] [] [] [] [] [] []]; reflexivity. Qed.

Lemma QueryEscape_safe (s : string) : all_bytes url_safe (QueryEscape s) = true.
Proof.
  induction s as [|c s IH]; [reflexivity|].
  cbn [QueryEscape]. now rewrite all_bytes_append, escape_byte_safe, IH.
Qed.

Lemma all_bytes_no_byte (p : ascii -> bool) (c : ascii) (s : string) :
  p c = false -> all_bytes p s = true -> has_byte c s = false.
Proof.
  intros Hc. induction s as [|a s IH]; cbn [all_bytes has_byte]; [reflexivity|].
  intros H. apply andb_true_iff in H as [Ha Hs]. rewrite (IH Hs), orb_false_r.
  destruct (Ascii.eqb a c) eqn:E; [|reflexivity].
  apply Ascii.eqb_eq in E. subst a. congruence.
Qed.

(** X4. The payload sent to the server is made of unreserved characters,
    percent signs and plus signs only, whatever the fields of the Watch
    Set hold; the two delimiter bytes never travel raw. *)
Theorem buildListeningConfigs_url_safe (items : list ConfigItem) :
  all_bytes url_safe (buildListeningConfigs items) = true
  /\ has_byte x01 (buildListeningConfigs items) = false
  /\ has_byte x02 (buildListeningConfigs items) = false.
Proof.
  assert (H : all_bytes url_safe (buildListeningConfigs items) = true)
    by apply QueryEscape_safe.
  split; [exact H|].
  split; (eapply all_bytes_no_byte; [|exact H]); reflexivity.
Qed.

(** X5. A decodable answer without a single field separator yields no
    notification: every one of its entries has fewer than two fields. *)
Theorem parse_without_field_separator (response decoded : string) :
  QueryUnescape response = Some decoded ->
  has_byte x02 decoded = false ->
  parseChangedConfigs response = [].
Proof.
  intros Hq H2. unfold parseChangedConfigs. rewrite Hq.
  pose proof (Split_pieces_keep decoded x01 x02 H2) as Hl.
  induction Hl as [|l lines Hl _ IH]; [reflexivity|].
  cbn [flat_map]. rewrite IH, app_nil_r. unfold parse_line.
  destruct (String.eqb l ""); [reflexivity|].
  now rewrite (Split_no_sep l x02 Hl).
Qed.

Lemma parse_without_field_separator_witness :
  parseChangedConfigs "skill.json%01other" = [].
Proof.
  apply (parse_without_field_separator "skill.json%01other"
           (String "s" (String "k" (String "i" (String "l" (String "l" (String "."
            (String "j" (String "s" (String "o" (String "n" (String x01 "other")))))))))))).
  - reflexivity.
  - reflexivity.
Defined.

End WireFormatMore.

(** ** More on the watch loop *)

Section EngineMore.

Context {W : Type} (E : Env W).

Implicit Types (handler : ChangeHandler W) (cur : gmap string nat)
  (items : list ConfigItem) (changed : ConfigItem) (s : St W).

Lemma set_MD5_identities items (i : nat) (v : string) :
  map forget_MD5 (set_MD5 items i v) = map forget_MD5 items
  /\ length (set_MD5 items i v) = length items.
Proof.
  unfold set_MD5. destruct (items !! i) as [it|] eqn:Hi; [|split; reflexivity].
  split; [|apply length_insert].
  revert i Hi. induction items as [|x items IH]; intros [|i] Hi; try discriminate.
  - cbn in Hi. injection Hi as ->. reflexivity.
  - cbn in Hi. cbn [map]. change (<[S i:=?y]> (x :: items)) with (x :: <[i:=y]> items).
    cbn [map]. now rewrite (IH i Hi).
Qed.

Lemma resolve_change_identities handler cur items changed (key m : string)
  (err : option string) s (items' : list ConfigItem) (s' : St W) :
  resolve_change handler cur items changed key m err s = Ok items' s' ->
  map forget_MD5 items' = map forget_MD5 items.
Proof.
  unfold resolve_change, bind, ret. destruct err as [msg|].
  - destruct (is_not_found msg); [|now intros [= <- _]].
    destruct (lookup_item cur items key) as [[i item]|]; [|now intros [= <- _]].
    destruct (String.eqb (MD5 item) ""); [now intros [= <- _]|].
    destruct (dispatch handler changed s); [|discriminate].
    intros [= <- _]. apply set_MD5_identities.
  - destruct (match lookup_item cur items key with
              | Some (_, item) => String.eqb (MD5 item) m
              | None => false
              end); [now intros [= <- _]|].
    destruct (dispatch handler changed s) as [[e|] s1|]; [now intros [= <- _]| |discriminate].
    destruct (lookup_item cur items key) as [[i item]|]; [|now intros [= <- _]].
    intros [= <- _]. apply set_MD5_identities.
Qed.

Lemma process_change_identities handler cur items changed s
  (items' : list ConfigItem) (s' : St W) :
  process_change E handler cur items changed s = Ok items' s' ->
  map forget_MD5 items' = map forget_MD5 items.
Proof.
  destruct (normalize_tenant_total E cur items changed (world s)) as (t & w1 & Hn).
  destruct (getConfig_total E (DataID changed) (Group changed) (Tenant changed) w1)
    as (c & m & err & w2 & Hf).
  rewrite (process_change_eval E _ _ _ _ _ _ _ _ _ _ _ Hn Hf).
  apply resolve_change_identities.
Qed.

Lemma process_changes_identities handler cur (changedItems : list ConfigItem) items s
  (items' : list ConfigItem) (s' : St W) :
  process_changes E handler cur items changedItems s = Ok items' s' ->
  map forget_MD5 items' = map forget_MD5 items.
Proof.
  revert items s. induction changedItems as [|changed rest IH]; intros items s.
  - now intros [= <- _].
  - cbn [process_changes]. unfold bind.
    destruct (process_change E handler cur items changed s) as [items1 s1|] eqn:H1;
      [|discriminate].
    intros H. rewrite (IH _ _ H). eapply process_change_identities, H1.
Qed.

Lemma listen_loop_identities (n : nat) handler cur items s
  (r : Outcome (option string)) (items' : list ConfigItem) (s' : St W) :
  listen_loop E n handler cur items s = Ok (r, items') s' ->
  map forget_MD5 items' = map forget_MD5 items.
Proof.
  revert items s. induction n as [|n IH]; intros items [w0 tr].
  - now intros [= _ <- _].
  - rewrite listen_loop_step. cbv zeta.
    destruct (fst (ctx_cancelled E w0)); [now intros [= _ <- _]|].
    destruct (longPoll E (buildListeningConfigs items) (snd (ctx_cancelled E w0)))
      as [[changedItems [msg|]] w2|w2]; [| |discriminate].
    + destruct (fst (ctx_cancelled E w2)); [now intros [= _ <- _] | apply IH].
    + destruct (0 <? length changedItems)%nat; [|apply IH].
      destruct (process_changes E handler cur items changedItems _) as [items1 s1|] eqn:H1;
        [|discriminate].
      intros H. rewrite (IH _ _ H). eapply process_changes_identities, H1.
Qed.

(** X6. The watch loop never adds, removes, reorders or renames an entry
    of the Watch Set: whatever it is left with has the data-ids, groups
    and tenants it was given, in the same order; only fingerprints move. *)
Theorem watch_set_identities_kept (n : nat) items handler s
  (r : Outcome (option string)) (items' : list ConfigItem) (s' : St W) :
  StartListening E n items handler s = Ok (r, items') s' ->
  map triple items' = map triple items /\ length items' = length items.
Proof.
  intros H. apply listen_loop_identities in H.
  assert (Ht : forall l, map triple l = map triple (map forget_MD5 l)).
  { intros l. rewrite map_map. reflexivity. }
  split.
  - now rewrite Ht, H, <- Ht.
  - now rewrite <- (length_map forget_MD5 items'), H, length_map.
Qed.

Lemma resolve_change_total handler cur items changed (key m : string)
  (err : option string) s :
  (forall d g t w, exists r w', handler d g t w = Ok r w') ->
  exists items' s', resolve_change handler cur items changed key m err s = Ok items' s'.
Proof.
  intros Hh. destruct s as [w tr].
  destruct (Hh (DataID changed) (Group changed) (Tenant changed) w) as (r & w' & Hr).
  unfold resolve_change, bind, ret. destruct err as [msg|].
  - destruct (is_not_found msg); [|eauto].
    destruct (lookup_item cur items key) as [[i item]|]; [|eauto].
    destruct (String.eqb (MD5 item) ""); [eauto|].
    rewrite (dispatch_eval _ _ _ _ _ _ Hr). eauto.
  - destruct (match lookup_item cur items key with
              | Some (_, item) => String.eqb (MD5 item) m
              | None => false
              end); [eauto|].
    rewrite (dispatch_eval _ _ _ _ _ _ Hr). destruct r; [eauto|].
    destruct (lookup_item cur items key) as [[i item]|]; eauto.
Qed.

Lemma process_changes_total handler cur (changedItems : list ConfigItem) items s :
  (forall d g t w, exists r w', handler d g t w = Ok r w') ->
  exists items' s', process_changes E handler cur items changedItems s = Ok items' s'.
Proof.
  intros Hh. revert items s.
  induction changedItems as [|changed rest IH]; intros items s; [cbn; unfold ret; eauto|].
  cbn [process_changes]. unfold bind.
  destruct (normalize_tenant_total E cur items changed (world s)) as (t & w1 & Hn).
  destruct (getConfig_total E (DataID changed) (Group changed) (Tenant changed) w1)
    as (c & m & err & w2 & Hf).
  rewrite (process_change_eval E _ _ _ _ _ _ _ _ _ _ _ Hn Hf).
  destruct (resolve_change_total handler cur items changed
              (item_key (DataID changed) (Group changed) t) m err
              (mkSt w2 (EvGetConfig (DataID changed) (Group changed) (Tenant changed)
                        :: trace s)) Hh)
    as (items1 & s1 & ->).
  apply IH.
Qed.

(** X7. The loop ends on cancellation only.  As long as the context is
    never found cancelled and the handler returns, the loop is still
    running after any number of iterations, however the long-poll calls,
    the fetches and the handler fail. *)
Theorem loop_runs_until_cancelled (n : nat) handler cur items s :
  (forall w, fst (ctx_cancelled E w) = false) ->
  (forall d g t w, exists r w', handler d g t w = Ok r w') ->
  exists items' s', listen_loop E n handler cur items s = Ok (Running, items') s'.
Proof.
  intros Hc Hh. revert items s. induction n as [|n IH]; intros items [w0 tr].
  - cbn. unfold ret. eauto.
  - rewrite listen_loop_step. cbv zeta. rewrite Hc.
    destruct (longPoll_total E (buildListeningConfigs items) (snd (ctx_cancelled E w0)))
      as ([changedItems [msg|]] & w2 & ->).
    + rewrite Hc. apply IH.
    + destruct (0 <? length changedItems)%nat; [|apply IH].
      destruct (process_changes_total handler cur changedItems items
                  (mkSt w2 (EvLongPoll (buildListeningConfigs items) :: tr)) Hh)
        as (items1 & s1 & ->).
      apply IH.
Qed.

(** X8. A fetch that fails for a reason other than not-found is dropped:
    the Watch Set is untouched, the handler is not called, and the loop
    goes on to the next notification. *)
Theorem other_fetch_failure_dropped handler cur items changed
  (rest : list ConfigItem) s (t c m msg : string) (w1 w2 : W) :
  normalize_tenant E cur items changed (world s) = Ok t w1 ->
  getConfig E (DataID changed) (Group changed) (Tenant changed) w1
  = Ok (c, m, Some msg) w2 ->
  is_not_found msg = false ->
  let s' := mkSt w2 (EvGetConfig (DataID changed) (Group changed) (Tenant changed)
                     :: trace s) in
  process_change E handler cur items changed s = Ok items s'
  /\ process_changes E handler cur items (changed :: rest) s
     = process_changes E handler cur items rest s'.
Proof.
  intros Hn Hf Hnf s'. subst s'.
  assert (H : process_change E handler cur items changed s
              = Ok items (mkSt w2 (EvGetConfig (DataID changed) (Group changed)
                                     (Tenant changed) :: trace s))).
  { rewrite (process_change_eval E _ _ _ _ _ _ _ _ _ _ _ Hn Hf).
    unfold resolve_change. now rewrite Hnf. }
  split; [exact H|]. cbn [process_changes]. unfold bind. now rewrite H.
Qed.

(** X9. A notification whose key is not in the Watch Set: if the fetch
    fails with not-found nothing is done; if the fetch succeeds the
    handler is called, whatever the fingerprint, and the Watch Set is
    left as it was whether the handler succeeds or fails. *)
Theorem untracked_key handler cur items changed s (t c m : string)
  (err herr : option string) (w1 w2 w3 : W) :
  normalize_tenant E cur items changed (world s) = Ok t w1 ->
  getConfig E (DataID changed) (Group changed) (Tenant changed) w1 = Ok (c, m, err) w2 ->
  lookup_item cur items (item_key (DataID changed) (Group changed) t) = None ->
  handler (DataID changed) (Group changed) (Tenant changed) w2 = Ok herr w3 ->
  let get := EvGetConfig (DataID changed) (Group changed) (Tenant changed) in
  let call := EvHandler (DataID changed) (Group changed) (Tenant changed) in
  process_change E handler cur items changed s
  = match err with
    | Some _ => Ok items (mkSt w2 (get :: trace s))
    | None => Ok items (mkSt w3 (call :: get :: trace s))
    end.
Proof.
  intros Hn Hf Hl Hh get call. subst get call.
  rewrite (process_change_eval E _ _ _ _ _ _ _ _ _ _ _ Hn Hf).
  unfold resolve_change. rewrite Hl. destruct err as [msg|].
  - now destruct (is_not_found msg).
  - unfold bind. rewrite (dispatch_eval _ _ _ _ _ _ Hh). now destruct herr.
Qed.

(** A successful fetch never reports the empty fingerprint. *)
Lemma getConfig_fingerprint (d g t c m : string) (w w' : W) :
  getConfig E d g t w = Ok (c, m, None) w' ->
  m <> "" /\ exists resp, get_configs E d g t w = (DoResponse resp, w')
                          /\ c = Body resp
                          /\ m = if String.eqb (ContentMD5 resp) ""
                                 then CalculateMD5 c else ContentMD5 resp.
Proof.
  unfold getConfig, bind, call, ret.
  destruct (get_configs E d g t w) as [[msg|resp] w1] eqn:Hg; cbn [fst snd];
    [discriminate|].
  destruct (negb (StatusCode resp =? 200)%Z); [discriminate|].
  destruct (ReadErr resp); [discriminate|].
  intros [= <- <- <-]. split; [|exists resp; repeat split; reflexivity].
  destruct (String.eqb (ContentMD5 resp) "") eqn:Eh.
  - intros Hm. pose proof (proj1 (CalculateMD5_shape (Body resp))) as Hlen.
    unfold calculateMD5 in Hm. rewrite Hm in Hlen. discriminate.
  - now apply String.eqb_neq.
Qed.

(** X10. An entry recorded as absent is re-armed by any successful fetch:
    the fingerprint fetched is never empty (it is the Content-MD5 header,
    or else the MD5 of the content), so the handler is called, and the
    fingerprint is stored if the handler succeeds. *)
Theorem absent_entry_rearmed handler cur items changed s (t c m : string)
  (herr : option string) (w1 w2 w3 : W) (i : nat) (item : ConfigItem) :
  normalize_tenant E cur items changed (world s) = Ok t w1 ->
  getConfig E (DataID changed) (Group changed) (Tenant changed) w1 = Ok (c, m, None) w2 ->
  lookup_item cur items (item_key (DataID changed) (Group changed) t) = Some (i, item) ->
  MD5 item = "" ->
  handler (DataID changed) (Group changed) (Tenant changed) w2 = Ok herr w3 ->
  m <> ""
  /\ process_change E handler cur items changed s
     = Ok match herr with Some _ => items | None => set_MD5 items i m end
         (mkSt w3 (EvHandler (DataID changed) (Group changed) (Tenant changed)
                   :: EvGetConfig (DataID changed) (Group changed) (Tenant changed)
                   :: trace s)).
Proof.
  intros Hn Hf Hl Hm Hh.
  destruct (getConfig_fingerprint _ _ _ _ _ _ _ Hf) as [Hne _].
  split; [exact Hne|].
  eapply updated_step; try eassumption. rewrite Hm. congruence.
Qed.

(** X11. Not-found is decided on the text of the error: a store answer
    with a status other than 200 counts as a deletion as soon as the
    status is 404 or the body contains "404" or "not exist". *)
Theorem not_found_by_text (d g t : string) (w w' : W) (resp : HttpResponse) :
  get_configs E d g t w = (DoResponse resp, w') ->
  StatusCode resp <> 200%Z ->
  StatusCode resp = 404%Z
  \/ Contains (Body resp) "404" = true
  \/ Contains (Body resp) "not exist" = true ->
  exists msg,
    getConfig E d g t w = Ok ("", "", Some msg) w'
    /\ msg = "get config returned status " +:+ itoa (StatusCode resp) +:+ ": " +:+ Body resp
    /\ is_not_found msg = true.
Proof.
  intros Hg Hs Hcase. unfold getConfig, bind, call, ret. rewrite Hg. cbn [fst snd].
  apply Z.eqb_neq in Hs. rewrite Hs. cbn [negb].
  eexists. split; [reflexivity|]. split; [reflexivity|].
  unfold is_not_found. apply orb_true_iff.
  destruct Hcase as [H4 | [Hb | Hb]].
  - left. rewrite H4. apply Contains_append. change (itoa 404) with "404".
    apply Contains_prefix.
  - left. now do 3 apply Contains_append.
  - right. now do 3 apply Contains_append.
Qed.

Lemma process_change_calls handler cur items changed s :
  handler_calls (trace (final_state (process_change E handler cur items changed s)))
  <= S (handler_calls (trace s)).
Proof.
  destruct (process_change_trace E handler cur items changed s) as [-> | ->]; cbn; lia.
Qed.

(** X12. A batch of notifications calls the handler at most once per
    notification, also when the batch is cut short by a panic. *)
Theorem at_most_one_call_per_notification handler cur
  (changedItems : list ConfigItem) items s :
  handler_calls
    (trace (final_state (process_changes E handler cur items changedItems s)))
  <= handler_calls (trace s) + length changedItems.
Proof.
  revert items s. induction changedItems as [|changed rest IH]; intros items s.
  - cbn. lia.
  - cbn [process_changes length]. unfold bind.
    pose proof (process_change_calls handler cur items changed s) as H1.
    destruct (process_change E handler cur items changed s) as [items1 s1|s1];
      cbn [final_state] in *.
    + specialize (IH items1 s1). lia.
    + lia.
Qed.

End EngineMore.

Section EngineMoreScenarios.

Lemma watch_set_identities_kept_witness :
  StartListening
    (scripted (script_poll (fun w => (4 <=? w)%nat)
                 (fun _ => status 200 "skill.json%02skill_demo%01")))
    2 (watched "" "f1") (handler_const None) (mkSt 0%nat [])
  = Ok (Returned None, watched "" "d41d8cd98f00b204e9800998ecf8427e")
      (mkSt 6%nat [ EvHandler "skill.json" "skill_demo" "";
                    EvGetConfig "skill.json" "skill_demo" "";
                    EvLongPoll "skill.json%02skill_demo%02f1%01" ])
  /\ map triple (watched "" "d41d8cd98f00b204e9800998ecf8427e")
     = map triple (watched "" "f1").
Proof.
  assert (H : StartListening
                (scripted (script_poll (fun w => (4 <=? w)%nat)
                             (fun _ => status 200 "skill.json%02skill_demo%01")))
                2 (watched "" "f1") (handler_const None) (mkSt 0%nat [])
              = Ok (Returned None, watched "" "d41d8cd98f00b204e9800998ecf8427e")
                  (mkSt 6%nat [ EvHandler "skill.json" "skill_demo" "";
                                EvGetConfig "skill.json" "skill_demo" "";
                                EvLongPoll "skill.json%02skill_demo%02f1%01" ]))
    by (vm_compute; reflexivity).
  split; [exact H|].
  exact (proj1 (watch_set_identities_kept _ _ _ _ _ _ _ _ H)).
Defined.

Lemma loop_runs_until_cancelled_witness :
  exists items' s',
    listen_loop (scripted (script_poll (fun _ => false) (fun _ => DoError "refused")))
      2 (handler_const None) (currentItems_of (watched "" "f1")) (watched "" "f1")
      (mkSt 0%nat [])
    = Ok (Running, items') s'.
Proof.
  apply loop_runs_until_cancelled.
  - intros w. reflexivity.
  - intros d g t w. exists None, (S w). reflexivity.
Defined.

Lemma other_fetch_failure_dropped_witness :
  process_change (scripted (script_fetch (fun _ => status 500 "boom"))) (handler_const None)
    (currentItems_of (watched "" "f1")) (watched "" "f1") (notified "") (mkSt 0%nat [])
  = Ok (watched "" "f1") (mkSt 2%nat [ EvGetConfig "skill.json" "skill_demo" "" ]).
Proof.
  refine (proj1 (other_fetch_failure_dropped
            (scripted (script_fetch (fun _ => status 500 "boom"))) (handler_const None)
            (currentItems_of (watched "" "f1")) (watched "" "f1") (notified "") []
            (mkSt 0%nat []) "" "" "" "get config returned status 500: boom"
            1%nat 2%nat _ _ _)).
  - vm_compute. reflexivity.
  - vm_compute. reflexivity.
  - vm_compute. reflexivity.
Defined.

Lemma untracked_key_witness :
  process_change (scripted (script_fetch (found "f9"))) (handler_const (Some "no"))
    (currentItems_of (watched "" "f1")) (watched "" "f1")
    (mkConfigItem "other.json" "skill_demo" "" "") (mkSt 0%nat [])
  = Ok (watched "" "f1")
      (mkSt 3%nat [ EvHandler "other.json" "skill_demo" "";
                    EvGetConfig "other.json" "skill_demo" "" ]).
Proof.
  refine (untracked_key (scripted (script_fetch (found "f9"))) (handler_const (Some "no"))
            (currentItems_of (watched "" "f1")) (watched "" "f1")
            (mkConfigItem "other.json" "skill_demo" "" "") (mkSt 0%nat [])
            "" "{}" "f9" None (Some "no") 1%nat 2%nat 3%nat _ _ _ _).
  - vm_compute. reflexivity.
  - vm_compute. reflexivity.
  - vm_compute. reflexivity.
  - reflexivity.
Defined.

Lemma absent_entry_rearmed_witness :
  "f2" <> ""
  /\ process_change (scripted (script_fetch (found "f2"))) (handler_const None)
       (currentItems_of (watched "" "")) (watched "" "") (notified "") (mkSt 0%nat [])
     = Ok (watched "" "f2")
         (mkSt 3%nat [ EvHandler "skill.json" "skill_demo" "";
                       EvGetConfig "skill.json" "skill_demo" "" ]).
Proof.
  refine (absent_entry_rearmed (scripted (script_fetch (found "f2"))) (handler_const None)
            (currentItems_of (watched "" "")) (watched "" "") (notified "") (mkSt 0%nat [])
            "" "{}" "f2" None 1%nat 2%nat 3%nat 0%nat
            (mkConfigItem "skill.json" "skill_demo" "" "") _ _ _ _ _).
  - vm_compute. reflexivity.
  - vm_compute. reflexivity.
  - vm_compute. reflexivity.
  - reflexivity.
  - reflexivity.
Defined.

Lemma not_found_by_text_witness :
  exists msg,
    getConfig (scripted (script_fetch (fun _ => status 500 "upstream said 404")))
      "a" "b" "" 0%nat
    = Ok ("", "", Some msg) 1%nat
    /\ msg = "get config returned status 500: upstream said 404"
    /\ is_not_found msg = true.
Proof.
  refine (not_found_by_text
            (scripted (script_fetch (fun _ => status 500 "upstream said 404")))
            "a" "b" "" 0%nat 1%nat
            {| StatusCode := 500; Body := "upstream said 404"; ReadErr := None;
               ContentMD5 := "" |} eq_refl _ _).
  - discriminate.
  - right. left. reflexivity.
Defined.

End EngineMoreScenarios.

(** ** More on the synchronizer *)

Section SyncMore.

Context {W : Type} (E : Env W).

Implicit Types (syncer : Sync.SkillSyncer) (acc : list ConfigItem * nat).

Lemma drop_bytes_append (p s : string) : drop_bytes (String.length p) (p +:+ s) = s.
Proof. induction p as [|c p IH]; [now destruct s | exact IH]. Qed.

Lemma TrimPrefix_append (p s : string) :
  HasPrefix (p +:+ s) p = true /\ TrimPrefix (p +:+ s) p = s.
Proof.
  unfold TrimPrefix, HasPrefix. rewrite prefix_append.
  split; [reflexivity | apply drop_bytes_append].
Qed.

(** What one turn of the seeding loop can do to its accumulators. *)
Lemma seed_one_cases syncer acc (skillName : string) (w w' : W)
  (acc' : list ConfigItem * nat) :
  Sync.seed_one E syncer acc skillName w = Ok acc' w' ->
  acc' = acc
  \/ acc' = ((fst acc ++ [ {| DataID := "skill.json"; Group := "skill_" +:+ skillName;
                              Tenant := Sync.Namespace syncer; MD5 := "" |} ])%list,
             snd acc)
  \/ exists content,
       content <> ""
       /\ acc' = ((fst acc ++ [ {| DataID := "skill.json"; Group := "skill_" +:+ skillName;
                                   Tenant := Sync.Namespace syncer;
                                   MD5 := CalculateMD5 content |} ])%list,
                  S (snd acc)).
Proof.
  unfold Sync.seed_one, bind, call, ret.
  destruct (client_GetConfig E "skill.json" ("skill_" +:+ skillName) w)
    as [[content [msg|]] w1]; cbn [fst snd].
  - destruct (is_not_found msg); [|intros [= <- _]; now left].
    destruct (fst (os_Stat E _ w1)); intros [= <- _]; right; now left.
  - destruct (String.eqb content "") eqn:Ec; [intros [= <- _]; now left|].
    unfold Sync.calculateMD5.
    rewrite (proj1 (CalculateMD5_shape content)). cbn [Nat.ltb Nat.leb].
    destruct (fst (skill_GetSkill E skillName (Sync.outputDir syncer) w1));
      intros [= <- _]; [now left|].
    right. right. exists content. split; [now apply String.eqb_neq | reflexivity].
Qed.

Lemma seed_all_invariant syncer (skillNames seen : list string) acc (w w' : W)
  (acc' : list ConfigItem * nat)
  (good := fun (names : list string) (it : ConfigItem) =>
             DataID it = "skill.json" /\ Tenant it = Sync.Namespace syncer
             /\ (exists name, In name names /\ Group it = "skill_" +:+ name)
             /\ (MD5 it = "" \/ String.length (MD5 it) = 32%nat))
  (inv := fun (names : list string) (a : list ConfigItem * nat) =>
            Forall (good names) (fst a)
            /\ length (fst a) <= length names
            /\ snd a = length (List.filter (fun it => negb (String.eqb (MD5 it) ""))
                                (fst a))) :
  inv seen acc ->
  Sync.seed_all E syncer acc skillNames w = Ok acc' w' ->
  inv (seen ++ skillNames)%list acc'.
Proof.
  revert seen acc w. induction skillNames as [|name rest IH]; intros seen acc w Hinv.
  - intros [= <- _]. now rewrite app_nil_r.
  - cbn [Sync.seed_all]. unfold bind.
    destruct (Sync.seed_one E syncer acc name w) as [acc1 w1|] eqn:H1; [|discriminate].
    intros Hrest.
    replace (seen ++ name :: rest)%list with ((seen ++ [name]) ++ rest)%list
      by (now rewrite <- app_assoc).
    apply (IH (seen ++ [name])%list acc1 w1); [|exact Hrest].
    destruct Hinv as (Hgood & Hlen & Hcount).
    assert (Hgood' : Forall (good (seen ++ [name])%list) (fst acc)).
    { eapply Forall_impl; [exact Hgood|].
      intros it (Hd & Ht & (nm & Hin & Hg) & Hm). repeat split; try assumption.
      exists nm. split; [apply in_or_app; now left | exact Hg]. }
    assert (Hnew : forall m, m = "" \/ String.length m = 32%nat ->
              good (seen ++ [name])%list
                {| DataID := "skill.json"; Group := "skill_" +:+ name;
                   Tenant := Sync.Namespace syncer; MD5 := m |}).
    { intros m Hm. repeat split; try assumption.
      exists name. split; [apply in_or_app; right; now left | reflexivity]. }
    apply seed_one_cases in H1 as [-> | [-> | (content & Hc & ->)]]; unfold inv; cbn [fst snd].
    + split; [exact Hgood'|]. split; [rewrite length_app; cbn; lia | exact Hcount].
    + split; [apply Forall_app_2; [exact Hgood' | repeat constructor; apply Hnew; now left]|].
      split; [rewrite !length_app; cbn; lia|].
      rewrite List.filter_app, length_app. cbn. lia.
    + pose proof (proj1 (CalculateMD5_shape content)) as H32.
      split; [apply Forall_app_2; [exact Hgood' | repeat constructor; apply Hnew; now right]|].
      split; [rewrite !length_app; cbn; lia|].
      rewrite List.filter_app, length_app. cbn [List.filter MD5].
      destruct (String.eqb (CalculateMD5 content) "") eqn:Ee.
      * apply String.eqb_eq in Ee. rewrite Ee in H32. discriminate.
      * cbn. lia.
Qed.

(** X13. Whatever the store answers during seeding, every entry of the
    Watch Set built has data-id skill.json, the group of one of the names
    given, the client's namespace as tenant and a fingerprint that is
    empty or 32 characters long; there is at most one entry per name, and
    [existingCount] is the number of entries with a fingerprint. *)
Theorem seeded_watch_set syncer (skillNames : list string) (w w' : W)
  (items : list ConfigItem) (existingCount : nat) :
  Sync.seed_all E syncer ([], 0%nat) skillNames w = Ok (items, existingCount) w' ->
  Forall (fun it =>
            DataID it = "skill.json" /\ Tenant it = Sync.Namespace syncer
            /\ (exists name, In name skillNames /\ Group it = "skill_" +:+ name)
            /\ (MD5 it = "" \/ String.length (MD5 it) = 32%nat)) items
  /\ length items <= length skillNames
  /\ existingCount
     = length (List.filter (fun it => negb (String.eqb (MD5 it) "")) items).
Proof.
  intros H.
  apply (seed_all_invariant syncer skillNames [] ([], 0%nat) w w' (items, existingCount));
    [|exact H].
  split; [constructor|]. split; reflexivity.
Qed.

(** X14. The handler leaves alone a group that is not of the form skill_
    followed by a name: it returns nil and asks nothing of the store or
    the file system. *)
Theorem handler_ignores_other_groups syncer (dataID grp tenant : string) (w : W) :
  HasPrefix grp "skill_" = false \/ grp = "skill_" ->
  Sync.handler E syncer dataID grp tenant w = Ok None w.
Proof.
  intros [H | ->]; unfold Sync.handler.
  - now rewrite H.
  - reflexivity.
Qed.

(** X15. For the group of a skill that the store reports as not found,
    the handler removes the local mirror of that very skill and returns
    nil, whether the removal succeeds or fails. *)
Theorem handler_deletion_never_fails syncer (dataID skillName tenant c msg : string)
  (w w1 : W) :
  skillName <> "" ->
  client_GetConfig E dataID ("skill_" +:+ skillName) w = ((c, Some msg), w1) ->
  is_not_found msg = true ->
  Sync.handler E syncer dataID ("skill_" +:+ skillName) tenant w
  = Ok None (snd (os_RemoveAll E (filepath_Join E (Sync.outputDir syncer) skillName) w1)).
Proof.
  intros Hn Hg Hnf. unfold Sync.handler.
  destruct (TrimPrefix_append "skill_" skillName) as [-> ->].
  rewrite (eqb_false_of_neq _ _ Hn). cbn [negb].
  unfold bind, call, Error, ret. rewrite Hg. cbn [fst snd orb]. now rewrite Hnf.
Qed.

(** X16. In the watch loop with the synchronizer's handler: when the
    content changed and the skill is still in the store, the skill is
    downloaded again; if the download fails the stored fingerprint is left
    as it was, so that the change is seen again, and if it succeeds the new
    fingerprint is stored. *)
Theorem failed_download_keeps_fingerprint syncer (cur : gmap string nat)
  (items : list ConfigItem) (skillName dataID tenant t c m c' : string)
  (gerr : option string) (s : St W) (w1 w2 w3 w4 : W) (i : nat) (item : ConfigItem) :
  let changed := {| DataID := dataID; Group := "skill_" +:+ skillName;
                    Tenant := tenant; MD5 := "" |} in
  skillName <> "" ->
  normalize_tenant E cur items changed (world s) = Ok t w1 ->
  getConfig E dataID ("skill_" +:+ skillName) tenant w1 = Ok (c, m, None) w2 ->
  lookup_item cur items (item_key dataID ("skill_" +:+ skillName) t) = Some (i, item) ->
  MD5 item <> m ->
  client_GetConfig E dataID ("skill_" +:+ skillName) w2 = ((c', None), w3) ->
  c' <> "" ->
  skill_GetSkill E skillName (Sync.outputDir syncer) w3 = (gerr, w4) ->
  process_change E (Sync.handler E syncer) cur items changed s
  = Ok match gerr with Some _ => items | None => set_MD5 items i m end
      (mkSt w4 (EvHandler dataID ("skill_" +:+ skillName) tenant
                :: EvGetConfig dataID ("skill_" +:+ skillName) tenant :: trace s)).
Proof.
  intros changed Hn Hnorm Hf Hl Hm Hg Hc Hs.
  assert (Hh : Sync.handler E syncer dataID ("skill_" +:+ skillName) tenant w2
               = Ok match gerr with
                    | Some e => Some ("failed to sync skill: " +:+ e)
                    | None => None
                    end w4).
  { unfold Sync.handler.
    destruct (TrimPrefix_append "skill_" skillName) as [-> ->].
    rewrite (eqb_false_of_neq _ _ Hn). cbn [negb].
    unfold bind, call, ret. rewrite Hg. cbn [fst snd orb].
    rewrite (eqb_false_of_neq _ _ Hc), Hs. cbn [fst snd]. now destruct gerr. }
  rewrite (updated_step E (Sync.handler E syncer) cur items changed s t c m _ w1 w2 w4 i item
             Hnorm Hf Hl Hm Hh).
  now destruct gerr.
Qed.

Lemma find_tenant_single (ord : list (string * nat)) (it : ConfigItem) (d g : string) :
  Tenant it = "" -> find_tenant ord [it] d g "" = "".
Proof.
  intros Ht. induction ord as [|[k i] ord IH]; cbn [find_tenant]; [reflexivity|].
  destruct ([it] !! i) as [x|] eqn:Hi; [|exact IH].
  destruct i as [|i]; [|destruct i; discriminate Hi].
  injection Hi as <-.
  destruct (String.eqb (DataID it) d && String.eqb (Group it) g); [exact Ht | exact IH].
Qed.

(** X17. A skill found at startup is seeded with the MD5 of its content;
    when the server later reports it changed and the fetch returns that
    same content without a Content-MD5 header, the notification is
    suppressed: the handler is not called and the Watch Set is left as it
    was. *)
Theorem seeded_content_not_redispatched syncer (skillName content : string)
  (w w1 w2 : W) :
  client_GetConfig E "skill.json" ("skill_" +:+ skillName) w = ((content, None), w1) ->
  content <> "" ->
  skill_GetSkill E skillName (Sync.outputDir syncer) w1 = (None, w2) ->
  let item := {| DataID := "skill.json"; Group := "skill_" +:+ skillName;
                 Tenant := Sync.Namespace syncer; MD5 := CalculateMD5 content |} in
  Sync.seed_one E syncer ([], 0%nat) skillName w = Ok ([item], 1%nat) w2
  /\ forall (handler : ChangeHandler W) (s : St W) (t : string) (wn wb : W)
            (resp : HttpResponse),
       normalize_tenant E (currentItems_of [item]) [item] (forget_MD5 item) (world s)
       = Ok t wn ->
       get_configs E "skill.json" ("skill_" +:+ skillName) (Sync.Namespace syncer) wn
       = (DoResponse resp, wb) ->
       StatusCode resp = 200%Z -> ReadErr resp = None -> ContentMD5 resp = "" ->
       Body resp = content ->
       process_change E handler (currentItems_of [item]) [item] (forget_MD5 item) s
       = Ok [item]
           (mkSt wb (EvGetConfig "skill.json" ("skill_" +:+ skillName)
                       (Sync.Namespace syncer) :: trace s)).
Proof.
  intros Hg Hc Hs item. split.
  - unfold Sync.seed_one, bind, call, ret. rewrite Hg. cbn [fst snd].
    rewrite (eqb_false_of_neq _ _ Hc). unfold Sync.calculateMD5.
    rewrite (proj1 (CalculateMD5_shape content)). cbn [Nat.ltb Nat.leb].
    now rewrite Hs.
  - intros handler s t wn wb resp Hn Hget H200 Hr Hh Hb.
    assert (Ht : t = Sync.Namespace syncer).
    { revert Hn. unfold normalize_tenant, forget_MD5, bind, call, ret, item.
      cbn [Tenant DataID Group].
      destruct (String.eqb (Sync.Namespace syncer) "") eqn:En; [|now intros [= <- _]].
      apply String.eqb_eq in En. intros [= <- _]. rewrite En.
      now apply find_tenant_single. }
    subst t.
    assert (Hf : getConfig E "skill.json" ("skill_" +:+ skillName) (Sync.Namespace syncer) wn
                 = Ok (content, CalculateMD5 content, None) wb).
    { unfold getConfig, bind, call, ret. rewrite Hget. cbn [fst snd].
      rewrite H200, Hr, Hh, Hb. reflexivity. }
    apply (unchanged_step E handler (currentItems_of [item]) [item] (forget_MD5 item) s
             (Sync.Namespace syncer) content (CalculateMD5 content) wn wb 0%nat item).
    + exact Hn.
    + exact Hf.
    + unfold lookup_item, currentItems_of. cbn [index_items forget_MD5 DataID Group Tenant item].
      rewrite lookup_insert_eq. reflexivity.
    + reflexivity.
Qed.

End SyncMore.

Section SyncMoreScenarios.

Lemma seeded_watch_set_witness :
  Sync.seed_all (scripted script_three_skills) (Sync.mkSkillSyncer "public" "/out")
    ([], 0%nat) ["a"; "b"; "c"] 0%nat
  = Ok ([ mkConfigItem "skill.json" "skill_a" "public" "99914b932bd37a50b983c5e7c90ae93b";
          mkConfigItem "skill.json" "skill_b" "public" "" ], 1%nat) 6%nat
  /\ (2 <= 3)%nat.
Proof.
  assert (H : Sync.seed_all (scripted script_three_skills)
                (Sync.mkSkillSyncer "public" "/out") ([], 0%nat) ["a"; "b"; "c"] 0%nat
              = Ok ([ mkConfigItem "skill.json" "skill_a" "public"
                        "99914b932bd37a50b983c5e7c90ae93b";
                      mkConfigItem "skill.json" "skill_b" "public" "" ], 1%nat) 6%nat)
    by (vm_compute; reflexivity).
  split; [exact H|].
  exact (proj1 (proj2 (seeded_watch_set _ _ _ _ _ _ _ H))).
Defined.

Lemma handler_ignores_other_groups_witness :
  Sync.handler (scripted script_steady) (Sync.mkSkillSyncer "public" "/out")
    "app.yaml" "DEFAULT_GROUP" "" 0%nat
  = Ok None 0%nat.
Proof.
  apply handler_ignores_other_groups. left. reflexivity.
Defined.

Lemma handler_deletion_never_fails_witness :
  Sync.handler (scripted script_three_skills) (Sync.mkSkillSyncer "public" "/out")
    "skill.json" "skill_b" "" 0%nat
  = Ok None 2%nat.
Proof.
  refine (handler_deletion_never_fails (scripted script_three_skills)
            (Sync.mkSkillSyncer "public" "/out") "skill.json" "b" ""
            "" "get config failed: status=404" 0%nat 1%nat _ eq_refl _).
  - discriminate.
  - reflexivity.
Defined.

Lemma failed_download_keeps_fingerprint_witness :
  process_change (scripted script_broken_download)
    (Sync.handler (scripted script_broken_download) (Sync.mkSkillSyncer "" "/out"))
    (currentItems_of (watched "" "f1")) (watched "" "f1") (notified "") (mkSt 0%nat [])
  = Ok (watched "" "f1")
      (mkSt 4%nat [ EvHandler "skill.json" "skill_demo" "";
                    EvGetConfig "skill.json" "skill_demo" "" ]).
Proof.
  refine (failed_download_keeps_fingerprint (scripted script_broken_download)
            (Sync.mkSkillSyncer "" "/out") (currentItems_of (watched "" "f1"))
            (watched "" "f1") "demo" "skill.json" "" "" "{}" "f2" "{}" (Some "disk full")
            (mkSt 0%nat []) 1%nat 2%nat 3%nat 4%nat 0%nat
            (mkConfigItem "skill.json" "skill_demo" "" "f1") _ _ _ _ _ eq_refl _ eq_refl).
  - discriminate.
  - vm_compute. reflexivity.
  - vm_compute. reflexivity.
  - vm_compute. reflexivity.
  - discriminate.
  - discriminate.
Defined.

Lemma seeded_content_not_redispatched_witness :
  Sync.seed_one (scripted script_steady) (Sync.mkSkillSyncer "" "/out") ([], 0%nat)
    "demo" 0%nat
  = Ok ([ mkConfigItem "skill.json" "skill_demo" "" (CalculateMD5 "{}") ], 1%nat) 2%nat.
Proof.
  refine (proj1 (seeded_content_not_redispatched (scripted script_steady)
                   (Sync.mkSkillSyncer "" "/out") "demo" "{}" 0%nat 1%nat 2%nat
                   eq_refl _ eq_refl)).
  discriminate.
Defined.

End SyncMoreScenarios.

(** ** Authentication of the listener *)

Section AuthFacts.

Import StringsMore Auth.

Local Open Scope Z_scope.

Lemma Index_unfold (s substr : string) :
  Index s substr =
  if String.prefix substr s then 0
  else match s with
       | EmptyString => -1
       | String _ r => let i := Index r substr in if i <? 0 then -1 else i + 1
       end.
Proof. destruct s; reflexivity. Qed.

Lemma prefix_length (a b : string) :
  String.prefix a b = true -> (String.length a <= String.length b)%nat.
Proof.
  revert b. induction a as [|c a IH]; intros b H; [cbn; lia|].
  destruct b as [|d b]; [discriminate|]. cbn in H |- *.
  destruct (ascii_dec c d); [|discriminate]. apply IH in H. lia.
Qed.

(** [strings.Index] answers -1 or the offset of a place where the string
    searched for fits. *)
Lemma Index_range (s substr : string) :
  Index s substr = -1 \/ (0 <= Index s substr /\ Index s substr + len substr <= len s).
Proof.
  induction s as [|c s IH]; rewrite Index_unfold.
  - destruct (String.prefix substr "") eqn:Hp; [|now left].
    right. apply prefix_length in Hp. unfold len. lia.
  - destruct (String.prefix substr (String c s)) eqn:Hp.
    + right. apply prefix_length in Hp. unfold len. lia.
    + cbv zeta. destruct (Index s substr <? 0) eqn:Hi; [now left|].
      right. apply Z.ltb_ge in Hi. destruct IH as [IH | IH]; [lia|].
      unfold len in *. cbn [String.length]. lia.
Qed.

Lemma length_drop_bytes (n : nat) (s : string) :
  String.length (drop_bytes n s) = (String.length s - n)%nat.
Proof.
  revert s. induction n as [|n IH]; intros [|c s]; cbn; try reflexivity. apply IH.
Qed.

Lemma take_bytes_all (n : nat) (s : string) :
  (String.length s <= n)%nat -> take_bytes n s = s.
Proof.
  revert s. induction n as [|n IH]; intros [|c s] H; cbn in *; try reflexivity; try lia.
  rewrite IH; [reflexivity | lia].
Qed.

Lemma take_bytes_append (a b : string) : take_bytes (String.length a) (a +:+ b) = a.
Proof.
  induction a as [|c a IH]; [now destruct b|].
  rewrite append_cons. cbn. now rewrite IH.
Qed.

Lemma length_take_bytes (n : nat) (s : string) :
  (String.length (take_bytes n s) <= String.length s)%nat.
Proof.
  revert s. induction n as [|n IH]; intros [|c s]; cbn; try lia.
  specialize (IH s). lia.
Qed.

Lemma slice_in_range (s : string) (lo hi : Z) :
  0 <= lo -> lo <= hi -> hi <= len s ->
  slice s lo hi = Some (take_bytes (Z.to_nat (hi - lo)) (drop_bytes (Z.to_nat lo) s)).
Proof.
  intros H1 H2 H3. unfold slice.
  apply Z.leb_le in H1, H2, H3. now rewrite H1, H2, H3.
Qed.

(** The tail slice [s[lo:]]. *)
Lemma slice_tail (s : string) (lo : Z) :
  0 <= lo -> lo <= len s -> slice s lo (len s) = Some (drop_bytes (Z.to_nat lo) s).
Proof.
  intros H1 H2. rewrite slice_in_range by lia. f_equal. apply take_bytes_all.
  rewrite length_drop_bytes. unfold len. lia.
Qed.

Lemma Index_byte_prefix_free (c : ascii) (s : string) :
  0 <= Index s (String c "") ->
  has_byte c (take_bytes (Z.to_nat (Index s (String c ""))) s) = false.
Proof.
  induction s as [|a s IH]; rewrite Index_unfold; [cbn; lia|].
  cbn [String.prefix]. destruct (ascii_dec c a) as [->|Hne].
  - destruct s; reflexivity.
  - cbv zeta. destruct (Index s (String c "") <? 0) eqn:Hi; [lia|].
    apply Z.ltb_ge in Hi. intros _.
    replace (Z.to_nat (Index s (String c "") + 1)) with (S (Z.to_nat (Index s (String c ""))))
      by lia.
    cbn [take_bytes has_byte]. rewrite (IH Hi), orb_false_r.
    apply Ascii.eqb_neq. congruence.
Qed.

Lemma Index_after_free_prefix (pre sub' x : string) (c : ascii) :
  has_byte c pre = false ->
  Index (pre +:+ (String c sub' +:+ x)) (String c sub') = len pre.
Proof.
  induction pre as [|a pre IH]; intros H.
  - rewrite append_empty_l, Index_unfold, prefix_append. reflexivity.
  - cbn [has_byte] in H. apply orb_false_iff in H as [Hac Hp].
    rewrite append_cons, Index_unfold. cbn [String.prefix].
    destruct (ascii_dec c a) as [->|Hne]; [now rewrite Ascii.eqb_refl in Hac|].
    cbv zeta. rewrite (IH Hp).
    assert (Hl : (len pre <? 0) = false) by (apply Z.ltb_ge; unfold len; lia).
    rewrite Hl. unfold len. cbn [String.length]. lia.
Qed.

Lemma length_append (a b : string) :
  String.length (a +:+ b) = (String.length a + String.length b)%nat.
Proof. induction a as [|c a IH]; [reflexivity|]. rewrite append_cons. cbn. now rewrite IH. Qed.

Lemma extract_cases (body : string) :
  extractAccessToken body = Some ""
  \/ exists start end_,
       0 <= start /\ 0 <= end_
       /\ end_ = Index (drop_bytes (Z.to_nat start) body) (String dquote "")
       /\ extractAccessToken body
          = Some (take_bytes (Z.to_nat end_) (drop_bytes (Z.to_nat start) body)).
Proof.
  unfold extractAccessToken. cbv zeta.
  destruct (Index_range body token_marker) as [Hi | [H0 Hfit]].
  - rewrite Hi. now left.
  - destruct (Index body token_marker =? -1) eqn:E1; [now left|].
    assert (Hlm : 0 <= len token_marker) by (unfold len; lia).
    rewrite slice_tail by lia.
    set (start := Index body token_marker + len token_marker) in *.
    set (rest := drop_bytes (Z.to_nat start) body).
    destruct (Index_range rest (String dquote "")) as [Hj | [Hj0 Hjfit]].
    + rewrite Hj. now left.
    + destruct (Index rest (String dquote "") =? -1) eqn:E2; [now left|].
      right. exists start, (Index rest (String dquote "")).
      split; [lia|]. split; [exact Hj0|]. split; [reflexivity|].
      assert (Hlen : len rest = len body - start).
      { unfold rest, len. rewrite length_drop_bytes. unfold len in Hfit. lia. }
      rewrite slice_in_range.
      * do 2 f_equal. lia.
      * lia.
      * lia.
      * change (len (String dquote "")) with 1 in Hjfit. lia.
Qed.

Lemma extractAccessToken_safe_aux (body : string) :
  exists token,
    extractAccessToken body = Some token /\ has_byte dquote token = false.
Proof.
  destruct (extract_cases body) as [-> | (start & end_ & _ & He & -> & ->)].
  - exists "". split; reflexivity.
  - eexists. split; [reflexivity|]. now apply Index_byte_prefix_free.
Qed.

(** X18. [extractAccessToken] cannot panic, whatever the body: both of
    its slice expressions are in range.  What it returns holds no double
    quote. *)
Theorem extractAccessToken_safe (body : string) :
  exists token,
    extractAccessToken body = Some token
    /\ has_byte dquote token = false
    /\ (String.length token <= String.length body)%nat.
Proof.
  destruct (extract_cases body) as [-> | (start & end_ & Hs & He0 & He & ->)].
  - exists "". repeat split; cbn; lia.
  - eexists. split; [reflexivity|]. split.
    + subst end_. now apply Index_byte_prefix_free.
    + pose proof (length_take_bytes (Z.to_nat end_) (drop_bytes (Z.to_nat start) body)).
      pose proof (length_drop_bytes (Z.to_nat start) body). lia.
Qed.

(** X19. From a body in which the key accessToken comes before any other
    double quote, [extractAccessToken] returns the value up to its closing
    quote; without the key it returns the empty string. *)
Theorem extractAccessToken_finds (pre token rest : string) :
  has_byte dquote pre = false ->
  has_byte dquote token = false ->
  extractAccessToken (pre +:+ (token_marker +:+ (token +:+ String dquote rest)))
  = Some token
  /\ extractAccessToken pre = Some "".
Proof.
  intros Hpre Htok. split.
  - unfold extractAccessToken. cbv zeta.
    set (body := pre +:+ (token_marker +:+ (token +:+ String dquote rest))).
    assert (Hi : Index body token_marker = len pre)
      by (apply (Index_after_free_prefix pre _ _ dquote Hpre)).
    rewrite Hi.
    assert (Hne : (len pre =? -1) = false) by (apply Z.eqb_neq; unfold len; lia).
    rewrite Hne.
    assert (Hlen : len body = len pre + len token_marker + len token + 1 + len rest).
    { unfold body, len. rewrite !length_append. cbn [String.length]. lia. }
    assert (Hdrop : drop_bytes (Z.to_nat (len pre + len token_marker)) body
                    = token +:+ String dquote rest).
    { unfold body. rewrite <- append_assoc.
      replace (Z.to_nat (len pre + len token_marker))
        with (String.length (pre +:+ token_marker))
        by (rewrite length_append; unfold len; lia).
      apply drop_bytes_append. }
    rewrite slice_tail by (unfold len in *; lia). rewrite Hdrop.
    assert (Hj : Index (token +:+ String dquote rest) (String dquote "") = len token)
      by (apply (Index_after_free_prefix token "" rest dquote Htok)).
    rewrite Hj.
    assert (Hne2 : (len token =? -1) = false) by (apply Z.eqb_neq; unfold len; lia).
    rewrite Hne2.
    rewrite slice_in_range by (unfold len in *; lia). rewrite Hdrop.
    replace (Z.to_nat (len pre + len token_marker + len token - (len pre + len token_marker)))
      with (String.length token) by (unfold len; lia).
    now rewrite take_bytes_append.
  - unfold extractAccessToken. cbv zeta.
    assert (Hi : Index pre token_marker = -1).
    { clear Htok. induction pre as [|a pre IH]; [reflexivity|].
      cbn [has_byte] in Hpre. apply orb_false_iff in Hpre as [Ha Hp].
      rewrite Index_unfold. unfold token_marker at 1. cbn [String.prefix].
      destruct (ascii_dec dquote a) as [<-|_]; [now rewrite Ascii.eqb_refl in Ha|].
      cbv zeta. now rewrite (IH Hp). }
    now rewrite Hi.
Qed.

Lemma extractAccessToken_finds_witness :
  extractAccessToken
    ("{" +:+ (token_marker +:+ ("abc" +:+ String dquote ",tokenTtl:18000}")))
  = Some "abc"
  /\ extractAccessToken "{" = Some "".
Proof.
  apply extractAccessToken_finds; reflexivity.
Defined.

Section LoginFacts.

Context {W : Type} (PostForm : string -> string -> string -> W -> HttpOutcome * W).

(** X20. [Login] cannot panic.  When it returns nil the listener holds a
    token that is not empty and holds no double quote, and its address
    and credentials are as before; when it returns an error the listener
    is as before, token included. *)
Theorem Login_outcome (l : ConfigListener) (w : W) :
  exists l' err,
    Login PostForm l w
    = Ok (l', err)
        (snd (PostForm ("http://" +:+ serverAddr l +:+ "/nacos/v1/auth/login")
                (username l) (password l) w))
    /\ match err with
       | None =>
           accessToken l' <> "" /\ has_byte dquote (accessToken l') = false
           /\ serverAddr l' = serverAddr l /\ username l' = username l
           /\ password l' = password l
       | Some _ => l' = l
       end.
Proof.
  unfold Login, bind, call, ret. cbv zeta.
  destruct (PostForm _ (username l) (password l) w) as [[msg|resp] w1]; cbn [fst snd].
  - eexists _, _. split; [reflexivity | reflexivity].
  - destruct (negb (StatusCode resp =? 200)).
    { eexists _, _. split; [reflexivity | reflexivity]. }
    destruct (ReadErr resp).
    { eexists _, _. split; [reflexivity | reflexivity]. }
    destruct (extractAccessToken_safe_aux (Body resp)) as (token & -> & Hq).
    destruct (String.eqb token "") eqn:Et.
    + eexists _, _. split; [reflexivity | reflexivity].
    + eexists _, _. split; [reflexivity|]. cbn [accessToken serverAddr username password].
      repeat split; try assumption. now apply String.eqb_neq.
Qed.

End LoginFacts.

End AuthFacts.

(** ** The server address, the signature payload and the skill service *)

Section ServiceFacts.

Lemma prefix_refl (s : string) : String.prefix s s = true.
Proof. rewrite <- (append_empty_r s) at 2. apply prefix_append. Qed.

Lemma append_eq_empty (a b : string) : a +:+ b = "" -> a = "".
Proof. destruct a; [reflexivity | discriminate]. Qed.

(** X21. [GetServerAddr] answers the empty string exactly for an empty
    host; for any other host the answer starts with the host and holds a
    colon. *)
Theorem GetServerAddr_shape (c : Config.Config) :
  (Config.GetServerAddr c = "" <-> Config.Host c = "")
  /\ (Config.Host c <> "" ->
      HasPrefix (Config.GetServerAddr c) (Config.Host c) = true
      /\ Contains (Config.GetServerAddr c) ":" = true).
Proof.
  unfold Config.GetServerAddr, HasPrefix.
  destruct (String.eqb (Config.Host c) "") eqn:Eh.
  { apply String.eqb_eq in Eh. split; [now split | intros H; now elim H]. }
  apply String.eqb_neq in Eh.
  destruct (Config.Port c =? 0)%Z.
  - destruct (Contains (Config.Host c) ":") eqn:Ec.
    + split; [split; intros H; congruence|]. intros _. split; [apply prefix_refl | exact Ec].
    + split; [split; intros H; [now apply append_eq_empty in H | congruence]|].
      intros _. split; [apply prefix_append | now apply Contains_append].
  - split; [split; intros H; [now apply append_eq_empty in H | congruence]|].
    intros _. split; [apply prefix_append|].
    apply Contains_append, Contains_prefix.
Qed.

Lemma GetServerAddr_shape_witness :
  HasPrefix (Config.GetServerAddr (Config.mkConfig "nacos.local" 0)) "nacos.local" = true
  /\ Contains (Config.GetServerAddr (Config.mkConfig "nacos.local" 0)) ":" = true.
Proof.
  apply (proj2 (GetServerAddr_shape (Config.mkConfig "nacos.local" 0))). discriminate.
Defined.

(** X22. The signature payload is the non-empty ones among tenant and
    group, then the time stamp, joined by plus signs.  A tenant alone and
    a group alone of the same name therefore give the same payload. *)
Theorem getSignData_joined (tenant group timeStamp : string) :
  Client.getSignData tenant group timeStamp
  = Join (List.filter (fun x => negb (String.eqb x "")) [tenant; group] ++ [timeStamp])%list
      "+"
  /\ Client.getSignData tenant "" timeStamp = Client.getSignData "" tenant timeStamp.
Proof.
  unfold Client.getSignData. cbn [List.filter].
  split.
  - destruct (String.eqb tenant ""), (String.eqb group ""); reflexivity.
  - cbn [String.eqb negb]. now destruct (String.eqb tenant "") eqn:Et.
Qed.

Lemma prefix_drop (p g : string) :
  String.prefix p g = true -> p +:+ drop_bytes (String.length p) g = g.
Proof.
  revert g. induction p as [|c p IH]; intros g H; [now destruct g|].
  destruct g as [|d g]; [discriminate|]. cbn in H.
  destruct (ascii_dec c d) as [->|]; [|discriminate].
  rewrite append_cons. cbn [String.length drop_bytes]. now rewrite (IH g H).
Qed.

Lemma skills_of_invariant (items seen : list Skill.Config) (skills : list string)
  (good := fun (configs : list Skill.Config) (name : string) =>
             exists config, In config configs
                            /\ Skill.DataID config = "skill.json"
                            /\ listed_group config = "skill_" +:+ name) :
  Forall (good seen) skills ->
  length skills <= length seen ->
  Forall (good (seen ++ items)%list) (Skill.skills_of items skills)
  /\ length (Skill.skills_of items skills) <= length (seen ++ items)%list.
Proof.
  revert seen skills. induction items as [|config rest IH]; intros seen skills Hg Hl.
  - rewrite app_nil_r. now split.
  - cbn [Skill.skills_of]. fold (listed_group config).
    replace (seen ++ config :: rest)%list with ((seen ++ [config]) ++ rest)%list
      by (now rewrite <- app_assoc).
    assert (Hg' : Forall (good (seen ++ [config])%list) skills).
    { eapply Forall_impl; [exact Hg|]. intros name (cfg & Hin & Hd & Hgr).
      exists cfg. split; [apply in_or_app; now left | now split]. }
    destruct (String.eqb (Skill.DataID config) "skill.json"
              && HasPrefix (listed_group config) "skill_") eqn:Ht.
    + apply IH; [|rewrite !length_app; cbn; lia].
      apply Forall_app_2; [exact Hg'|]. repeat constructor.
      apply andb_true_iff in Ht as [Hd Hp]. apply String.eqb_eq in Hd.
      exists config. split; [apply in_or_app; right; now left|]. split; [exact Hd|].
      unfold TrimPrefix. rewrite Hp. symmetry. now apply (prefix_drop "skill_").
    + apply IH; [exact Hg' | rewrite length_app; cbn; lia].
Qed.

Section SkillService.

Context {W : Type}.
Variable ListConfigs :
  string -> string -> string -> Z -> Z -> W -> (Skill.ConfigListResponse + string) * W.
Variable getSkillWithValidation : string -> string -> W -> option string * W.
Variable Sleep : Z -> W -> unit * W.

(** X23. [ListSkills] answers an error exactly when the listing fails,
    and then no name.  Otherwise every name it answers is that of a listed
    configuration with data-id skill.json whose group is skill_ followed
    by the name, there are no more names than configurations on the page,
    and the count answered is the total of the store, not the number of
    names. *)
Theorem ListSkills_names (skillName : string) (pageNo pageSize : Z) (w : W) :
  let groupFilter := if String.eqb skillName "" then "skill_*"
                     else "skill_*" +:+ skillName +:+ "*" in
  match fst (ListConfigs "skill.json" groupFilter "" pageNo pageSize w) with
  | inr err =>
      Skill.ListSkills ListConfigs skillName pageNo pageSize w
      = Ok ([], 0%Z, Some err)
          (snd (ListConfigs "skill.json" groupFilter "" pageNo pageSize w))
  | inl configs =>
      exists names,
        Skill.ListSkills ListConfigs skillName pageNo pageSize w
        = Ok (names, Skill.TotalCount configs, None)
            (snd (ListConfigs "skill.json" groupFilter "" pageNo pageSize w))
        /\ Forall (fun name =>
                     exists config, In config (Skill.PageItems configs)
                                    /\ Skill.DataID config = "skill.json"
                                    /\ listed_group config = "skill_" +:+ name) names
        /\ length names <= length (Skill.PageItems configs)
  end.
Proof.
  intros groupFilter. unfold Skill.ListSkills, bind, call, ret. subst groupFilter.
  destruct (String.eqb skillName ""); cbn [negb];
    (match goal with
     | |- context [ListConfigs ?a ?b ?c ?d ?e w] =>
         destruct (ListConfigs a b c d e w) as [[configs|err] w1]
     end; cbn [fst snd]; [|reflexivity];
     eexists; split; [reflexivity|];
     apply (skills_of_invariant (Skill.PageItems configs) [] []); [constructor | cbn; lia]).
Qed.

End SkillService.

(** X24. [GetSkill] makes at least one and at most three attempts and
    sleeps between two attempts only, so one time less than it attempts.
    What it returns is the answer of an attempt (the [return] after the
    loop is never reached); it stops before the third attempt only on
    success or on an error that is not a uniformId mismatch. *)
Theorem GetSkill_attempts {W : Type}
  (getSkillWithValidation : string -> string -> W -> option string * W)
  (Sleep : Z -> W -> unit * W) (skillName outputDir : string) (w : W) :
  exists r w' attempts sleeps,
    Skill.GetSkill
      (fun n o => passing (counting (getSkillWithValidation n o)))
      (fun d => counting (passing (Sleep d)))
      skillName outputDir ((w, 0), 0)
    = Ok r ((w', attempts), sleeps)
    /\ 1 <= attempts <= 3
    /\ sleeps = attempts - 1
    /\ (exists w0, fst (getSkillWithValidation skillName outputDir w0) = r)
    /\ (attempts < 3 ->
        r = None \/ exists msg, r = Some msg /\ Contains msg "uniformId mismatch" = false).
Proof.
  unfold Skill.GetSkill. change (Z.to_nat Skill.maxRetries) with 3%nat.
  cbn [Skill.GetSkill_from].
  change (1 <? Skill.maxRetries)%Z with true.
  change (1 + 1 <? Skill.maxRetries)%Z with true.
  change (1 + 1 + 1 <? Skill.maxRetries)%Z with false.
  unfold bind, call, ret, passing, counting. cbn [fst snd].
  destruct (getSkillWithValidation skillName outputDir w) as [[m1|] w1] eqn:H1; cbn [fst snd].
  2:{ eexists _, _, _, _. split; [reflexivity|]. repeat split; try lia.
      - exists w. now rewrite H1.
      - now left. }
  destruct (Contains m1 "uniformId mismatch") eqn:C1.
  2:{ eexists _, _, _, _. split; [reflexivity|]. repeat split; try lia.
      - exists w. now rewrite H1.
      - right. now exists m1. }
  cbn [fst snd].
  destruct (getSkillWithValidation skillName outputDir (snd (Sleep Skill.retryDelay w1)))
    as [[m2|] w3] eqn:H2; cbn [fst snd].
  2:{ eexists _, _, _, _. split; [reflexivity|]. repeat split; try lia.
      - eexists. now rewrite H2.
      - now left. }
  destruct (Contains m2 "uniformId mismatch") eqn:C2.
  2:{ eexists _, _, _, _. split; [reflexivity|]. repeat split; try lia.
      - eexists. now rewrite H2.
      - right. now exists m2. }
  cbn [fst snd].
  destruct (getSkillWithValidation skillName outputDir (snd (Sleep Skill.retryDelay w3)))
    as [[m3|] w5] eqn:H3; cbn [fst snd].
  2:{ eexists _, _, _, _. split; [reflexivity|]. repeat split; try lia.
      eexists. now rewrite H3. }
  destruct (Contains m3 "uniformId mismatch") eqn:C3;
    (eexists _, _, _, _; split; [reflexivity|]; repeat split; try lia;
     eexists; now rewrite H3).
Qed.

End ServiceFacts.

(** ** The plain client *)

Section ClientFacts.

Context {W : Type}.
Variable ensureTokenValid :
  Client.NacosClient -> W -> (Client.NacosClient * option string) * W.
Variable UnixMilli : W -> Z * W.
Variable spasSign : string -> string -> string.
Variable Get : string -> Client.Request -> W -> HttpOutcome * W.

(** X25. With a valid token, what [GetConfig] answers follows from the
    status alone: on 200 the body and no error, even when the body is
    empty; on any other status no content and an error naming the status;
    and the error for 404 is one the synchronizer takes for not-found. *)
Theorem GetConfig_by_status (c : Client.NacosClient) (dataID group : string) (w : W)
  (resp : HttpResponse) :
  (forall c0 w0, snd (fst (ensureTokenValid c0 w0)) = None) ->
  (forall url req w0, fst (Get url req w0) = DoResponse resp) ->
  let answer :=
    snd (fst (Client.GetConfig ensureTokenValid UnixMilli spasSign Get c dataID group w)) in
  (StatusCode resp = 200%Z -> answer = (Body resp, None))
  /\ (StatusCode resp <> 200%Z ->
      answer = ("", Some ("get config failed: status=" +:+ itoa (StatusCode resp))))
  /\ (StatusCode resp = 404%Z ->
      exists msg, answer = ("", Some msg) /\ is_not_found msg = true).
Proof.
  intros Hvalid Hget answer. subst answer. unfold Client.GetConfig.
  specialize (Hvalid c w).
  destruct (ensureTokenValid c w) as [[c1 err] w1]. cbn [fst snd] in Hvalid. subst err.
  match goal with
  | |- context [Client.setSpasHeaders ?u ?s ?c ?r ?t ?g ?x] =>
      destruct (Client.setSpasHeaders u s c r t g x) as [req w2]
  end.
  match goal with
  | |- context [Get ?u req w2] =>
      specialize (Hget u req w2); destruct (Get u req w2) as [r w3]
  end.
  cbn [fst snd] in Hget |- *. subst r.
  split; [|split].
  - intros ->. reflexivity.
  - intros Hs. apply Z.eqb_neq in Hs. now rewrite Hs.
  - intros Hs. rewrite Hs. cbn [Z.eqb Pos.eqb negb fst snd].
    eexists. split; [reflexivity|].
    unfold is_not_found. apply orb_true_iff. left.
    apply Contains_append. change (itoa 404) with "404".
    rewrite <- (append_empty_r "404") at 1. apply Contains_prefix.
Qed.

(** X26. [setSpasHeaders] leaves the request alone unless the auth type
    is aliyun and both keys are set; it signs the namespace public like
    no namespace at all; and then, for a group that is not empty, what it
    signs is the group, a plus sign and the time stamp it also sends. *)
Theorem setSpasHeaders_scope (c : Client.NacosClient) (req : Client.Request)
  (tenant group : string) (w : W) :
  (Client.AuthType c <> Client.AuthTypeAliyun
   \/ Client.AccessKey c = "" \/ Client.SecretKey c = "" ->
   Client.setSpasHeaders UnixMilli spasSign c req tenant group w = (req, w))
  /\ Client.setSpasHeaders UnixMilli spasSign c req "public" group w
     = Client.setSpasHeaders UnixMilli spasSign c req "" group w
  /\ (Client.AuthType c = Client.AuthTypeAliyun ->
      Client.AccessKey c <> "" -> Client.SecretKey c <> "" -> group <> "" ->
      let req' := fst (Client.setSpasHeaders UnixMilli spasSign c req "public" group w) in
      let ts := itoa (fst (UnixMilli w)) in
      Client.Headers req' !! "Spas-Signature"
      = Some (spasSign (group +:+ "+" +:+ ts) (Client.SecretKey c))
      /\ Client.Headers req' !! "timeStamp" = Some ts
      /\ Client.Query req' = Client.Query req).
Proof.
  split; [|split; [reflexivity|]].
  - unfold Client.setSpasHeaders. intros [H | [H | H]].
    + apply String.eqb_neq in H. now rewrite H.
    + rewrite H. cbn. now rewrite orb_true_r.
    + rewrite H. cbn. now rewrite orb_true_r.
  - intros Ha Hk Hs Hg req' ts. subst req' ts. unfold Client.setSpasHeaders.
    rewrite Ha, String.eqb_refl, (eqb_false_of_neq _ _ Hk), (eqb_false_of_neq _ _ Hs).
    cbn [negb orb fst Client.Headers Client.Query String.eqb Ascii.eqb Bool.eqb].
    unfold Client.getSignData. cbn [String.eqb]. rewrite (eqb_false_of_neq _ _ Hg).
    split; [|split; [|reflexivity]].
    + now rewrite lookup_insert_eq.
    + rewrite !lookup_insert_ne by discriminate. now rewrite lookup_insert_eq.
Qed.

End ClientFacts.

Section ClientScenarios.

Lemma GetConfig_by_status_witness :
  exists msg,
    snd (fst (Client.GetConfig (fun c (w : nat) => (c, None, w)) (fun w => (0%Z, w))
                (fun _ _ => "") (fun _ _ w => (status 404 "config data not exist", S w))
                (Client.mkNacosClient "127.0.0.1:8848" "public" "nacos" "" "" "")
                "skill.json" "skill_demo" 0%nat))
    = ("", Some msg)
    /\ is_not_found msg = true.
Proof.
  refine (proj2 (proj2 (GetConfig_by_status (fun c (w : nat) => (c, None, w))
                          (fun w => (0%Z, w)) (fun _ _ => "")
                          (fun _ _ w => (status 404 "config data not exist", S w))
                          (Client.mkNacosClient "127.0.0.1:8848" "public" "nacos" "" "" "")
                          "skill.json" "skill_demo" 0%nat
                          {| StatusCode := 404; Body := "config data not exist";
                             ReadErr := None; ContentMD5 := "" |} _ _)) eq_refl).
  - intros c0 w0. reflexivity.
  - intros url req w0. reflexivity.
Defined.

End ClientScenarios.
